(** * The Bella interpreter, embedded in Rocq

    The repository holds two drafts of one tree-walking interpreter written in
    TypeScript.  The complete draft keeps one module-level [memory] map that
    every [interpret] method reads and writes; it is embedded in [Module
    Global].  The earlier draft ([bella.ts], second listing) passes the map to
    every [interpret] call; it is embedded in [Module Threaded].  The first
    listing of [bella.ts] is an unfinished copy of the second (its [Block]
    class is not closed and its [Program] has no [interpret]); it has no
    behaviour of its own to embed.

    JavaScript numbers are IEEE-754 binary64 values: they are Rocq's primitive
    [float]s.  What the host computes by an implementation-defined
    approximation ([Math.sin], [**], ...) is a field of the class [Host]. *)

From Stdlib Require Import Floats ZArith NArith.
From stdpp Require Import gmap strings list.

(** Induction on the syntax trees goes through the lists they nest. *)
Scheme All for list.

(** ** The host: numbers and [Math] *)

(** The operations of the JavaScript runtime that have no counterpart among
    the primitive float operations. *)
Class Host := {
  Math_sin : float -> float;
  Math_cos : float -> float;
  Math_exp : float -> float;
  Math_hypot : list float -> float;
  (** [a % b] and [a ** b] on numbers *)
  Number_remainder : float -> float -> float;
  Number_exponentiate : float -> float -> float
}.

(** [Math.sqrt] is the correctly rounded IEEE-754 square root. *)
Definition Math_sqrt (x : float) : float := PrimFloat.sqrt x.

(** [Math.PI] and [Math.LN10], the doubles nearest to pi and to ln 10. *)
Definition Math_PI : float := 0x1.921fb54442d18p+1%float.
Definition Math_LN10 : float := 0x1.26bb1bbb55516p+1%float.

(** The built-in functions that [Program.interpret] stores in [memory]. *)
Inductive Native := NativeSin | NativeCos | NativeHypot | NativeSqrt | NativeExp.

(** ToBoolean on a number: [0], [-0] and [NaN] are falsy. *)
Definition number_truthy (n : float) : bool :=
  negb (PrimFloat.eqb n 0%float) && negb (PrimFloat.is_nan n).

(** The number as an array index: [arr[n]] reads the property whose key is
    the string of [n], which names an element exactly when [n] is a
    non-negative integer ([-0] prints as "0"). *)
Definition array_index (n : float) : option N :=
  match Prim2SF n with
  | S754_zero _ => Some 0%N
  | S754_finite false m e =>
      match e with
      | Z0 => Some (Npos m)
      | Zpos p => Some (Npos m * 2 ^ Npos p)%N
      | Zneg p =>
          if (Npos m mod 2 ^ Npos p =? 0)%N
          then Some (Npos m / 2 ^ Npos p)%N else None
      end
  | _ => None
  end.

(** The messages of the [Error]s the two drafts throw. *)
Inductive Error :=
| VariableAlreadyDeclared (name : string)   (* Variable already declared: name *)
| UnknownVariable (name : string)           (* Unknown variable: name *)
| MustBeANumber                             (* Must be a number to use arithmetic operations *)
| UnknownOperator (operator : string)       (* Unknown operator: op *)
| ValueIsNotAFunction (name : string)       (* Value is not a function: name *)
| UnknownFunction (name : string)           (* Unknown function: name *)
| SubscriptedItemMustBeAnArray              (* Subscripted item must be an array *)
| SubscriptValueMustBeANumber               (* Subscript value must be a number *)
| VariableIsNotANumber (name : string).     (* Variable is not a number: name *)

(** The error kinds of the specification.  The code throws plain [Error]
    objects; [error_kind] reads each message as the kind it reports. *)
Inductive ErrorKind :=
| RedeclarationError | UnboundVariableError | TypeError | UnknownOperatorError
| NotCallableError | ArityMismatchError | IndexOutOfRangeError.

Definition error_kind (e : Error) : ErrorKind :=
  match e with
  | VariableAlreadyDeclared _ => RedeclarationError
  | UnknownVariable _ => UnboundVariableError
  | MustBeANumber => TypeError
  | UnknownOperator _ => UnknownOperatorError
  | ValueIsNotAFunction _ => NotCallableError
  | UnknownFunction _ => NotCallableError
  | SubscriptedItemMustBeAnArray => TypeError
  | SubscriptValueMustBeANumber => TypeError
  | VariableIsNotANumber _ => TypeError
  end.

(** ** Calls that return or throw

    An [interpret] call either returns or throws, and both leave a state
    behind.  [St] is the state the draft at hand works on. *)
Inductive Outcome (St A : Type) :=
| Returns (a : A) (s : St)
| Throws (e : Error) (s : St).
Arguments Returns {St A} a s.
Arguments Throws {St A} e s.

Definition M (St A : Type) : Type := St -> Outcome St A.

Definition ret {St A} (a : A) : M St A := fun s => Returns a s.
Definition throw {St A} (e : Error) : M St A := fun s => Throws e s.
Definition bind {St A B} (m : M St A) (k : A -> M St B) : M St B :=
  fun s => match m s with
           | Returns a s' => k a s'
           | Throws e s' => Throws e s'
           end.

Notation "'do' x <- m ; k" := (bind m (fun x => k))
  (at level 10, x name, m at level 100, k at level 200).

(** [es.map((e) => f(e))]: left to right, abandoned at the first throw. *)
Definition map_M {St A B} (f : A -> M St B) : list A -> M St (list B) :=
  fix go (l : list A) : M St (list B) :=
    match l with
    | [] => ret []
    | a :: l' => do b <- f a; do bs <- go l'; ret (b :: bs)
    end.

(** What running a statement with a bound on loop iterations gives: [None]
    when the bound is reached before the statement ends. *)
Definition Run (St : Type) : Type := option (Outcome St unit).

(** ** The complete draft: one module-level [memory] *)

Module Global.

(** Expressions.  Where the source holds an [Identifier] object only to read
    its [name] ([Call.callee], [VariableDeclaration.id], ...), the embedding
    holds the name. *)
Inductive Expression :=
| BinaryExp (operator : string) (left right : Expression)
| UnaryExp (operator : string) (operand : Expression)
| ConditionalExpression (test consequent alternate : Expression)
| Call (callee : string) (args : list Expression)
| ArrayLiteral (elements : list Expression)
| Subscript (array subscript : Expression)
| Identifier (name : string)
| Numeral (value : float)
| Bool (value : bool).

(** Statements.  [ExpressionStatement] is an expression standing in a
    [Block]: every expression class has an [interpret] method, so TypeScript
    accepts it as a [Statement], and the sample program of the draft places a
    [Call] there. *)
Inductive Statement :=
| VariableDeclaration (id : string) (initializer : Expression)
| Assignment (target : string) (source : Expression)
| PrintStatement (expression : Expression)
| While (expression : Expression) (block : list Statement)
| FunctionStatement (id : string) (args : list Expression) (expression : Expression)
| ExpressionStatement (expression : Expression).

(** Runtime values: [number | boolean | Value[] | native function |
    [Identifier[], Expression]], and [undefined], which is what reading an
    array outside its elements yields. *)
Inductive Value :=
| VNumber (n : float)
| VBoolean (b : bool)
| VArray (elements : list Value)
| VNative (f : Native)
| VClosure (params : list Expression) (body : Expression)
| VUndefined.

(** The state all [interpret] methods share: the [memory] map and what
    [console.log] has written so far (oldest first). *)
Record State := { memory : gmap string Value; console : list Value }.

Definition initial : State := {| memory := ∅; console := [] |}.

(** [memory.has(k)]: a key whose value is [undefined] is still present. *)
Definition memory_has (k : string) (s : State) : bool :=
  bool_decide (is_Some (memory s !! k)).

(** [memory.get(k)]: [undefined] for an absent key. *)
Definition memory_get (k : string) (s : State) : Value :=
  default VUndefined (memory s !! k).

(** [memory.set(k, v)] *)
Definition memory_set (k : string) (v : Value) (s : State) : State :=
  {| memory := <[k := v]> (memory s); console := console s |}.

(** [console.log(v)] *)
Definition console_log (v : Value) (s : State) : State :=
  {| memory := memory s; console := console s ++ [v] |}.

(** [typeof v === "number"] *)
Definition is_number (v : Value) : bool :=
  match v with VNumber _ => true | _ => false end.

(** ToBoolean *)
Definition truthy (v : Value) : bool :=
  match v with
  | VNumber n => number_truthy n
  | VBoolean b => b
  | VUndefined => false
  | VArray _ | VNative _ | VClosure _ _ => true
  end.

(** ToNumber.  An array is first joined into a string: the empty array gives
    the empty string, which reads as 0; a one-element array gives the string
    of its element (empty for [undefined]); two or more elements give a string
    with a comma, which reads as NaN.  A closure is a two-element array. *)
Fixpoint ToNumber (v : Value) : float :=
  match v with
  | VNumber n => n
  | VBoolean b => if b then 1%float else 0%float
  | VUndefined => nan
  | VNative _ => nan
  | VClosure _ _ => nan
  | VArray [] => 0%float
  | VArray [x] =>
      match x with
      | VNumber n => if PrimFloat.eqb n 0%float then 0%float else n
      | VUndefined => 0%float
      | VArray _ => ToNumber x
      | VBoolean _ | VNative _ | VClosure _ _ => nan
      end
  | VArray (_ :: _ :: _) => nan
  end.

(** The values that expressions return: numbers, booleans, [undefined] and
    arrays of such.  Functions and closures live in [memory] only. *)
Fixpoint is_data (v : Value) : bool :=
  match v with
  | VNumber _ | VBoolean _ | VUndefined => true
  | VArray elements => forallb is_data elements
  | VNative _ | VClosure _ _ => false
  end.

(** [arrayValue[subscriptValue]] for an array and a number. *)
Definition array_get (elements : list Value) (n : float) : Value :=
  match array_index n with
  | Some i =>
      if (i <? N.of_nat (length elements))%N
      then default VUndefined (elements !! N.to_nat i)
      else VUndefined
  | None => VUndefined
  end.

Section Interpreter.
Context `{Host}.

(** [functionValue(x)]: the native called on one argument. *)
Definition apply_native (f : Native) (x : Value) : Value :=
  match f with
  | NativeSin => VNumber (Math_sin (ToNumber x))
  | NativeCos => VNumber (Math_cos (ToNumber x))
  | NativeHypot => VNumber (Math_hypot [ToNumber x])
  | NativeSqrt => VNumber (Math_sqrt (ToNumber x))
  | NativeExp => VNumber (Math_exp (ToNumber x))
  end.

(** The two [switch] statements of [BinaryExp.interpret] on two numbers: the
    first returns for an arithmetic operator and otherwise falls through to
    the second. *)
Definition binary_numbers (operator : string) (l r : float) : M State Value :=
  if String.eqb operator "+" then ret (VNumber (l + r)%float)
  else if String.eqb operator "-" then ret (VNumber (l - r)%float)
  else if String.eqb operator "*" then ret (VNumber (l * r)%float)
  else if String.eqb operator "/" then ret (VNumber (l / r)%float)
  else if String.eqb operator "%" then ret (VNumber (Number_remainder l r))
  else if String.eqb operator "**" then ret (VNumber (Number_exponentiate l r))
  else if String.eqb operator "<" then ret (VBoolean (PrimFloat.ltb l r))
  else if String.eqb operator "<=" then ret (VBoolean (PrimFloat.leb l r))
  else if String.eqb operator "==" then ret (VBoolean (PrimFloat.eqb l r))
  else if String.eqb operator "!=" then ret (VBoolean (negb (PrimFloat.eqb l r)))
  else if String.eqb operator ">=" then ret (VBoolean (PrimFloat.leb r l))
  else if String.eqb operator ">" then ret (VBoolean (PrimFloat.ltb r l))
  else if String.eqb operator "&&" then
    ret (VNumber (if number_truthy l then r else l))
  else if String.eqb operator "||" then
    ret (VNumber (if number_truthy l then l else r))
  else throw (UnknownOperator operator).

(** [Expression.interpret()] *)
Fixpoint interpret (e : Expression) : M State Value :=
  match e with
  | BinaryExp operator l r =>
      do lv <- interpret l;
      do rv <- interpret r;
      match lv, rv with
      | VNumber a, VNumber b => binary_numbers operator a b
      | _, _ => throw MustBeANumber
      end
  | UnaryExp operator operand =>
      if String.eqb operator "-" then
        do v <- interpret operand; ret (VNumber (- ToNumber v)%float)
      else if String.eqb operator "!" then
        do v <- interpret operand; ret (VBoolean (negb (truthy v)))
      else throw (UnknownOperator operator)
  | ConditionalExpression test consequent alternate =>
      do t <- interpret test;
      if truthy t then interpret consequent else interpret alternate
  | Call callee args =>
      fun s =>
        match memory_get callee s with
        | VNative f =>
            (do argv <- map_M interpret args;
             ret (apply_native f (VArray argv))) s
        | _ => Throws (ValueIsNotAFunction callee) s
        end
  | ArrayLiteral elements =>
      do vs <- map_M interpret elements; ret (VArray vs)
  | Subscript array subscript =>
      do arrayValue <- interpret array;
      do subscriptValue <- interpret subscript;
      match arrayValue with
      | VArray elements =>
          match subscriptValue with
          | VNumber n => ret (array_get elements n)
          | _ => throw SubscriptValueMustBeANumber
          end
      | _ => throw SubscriptedItemMustBeAnArray
      end
  | Identifier name =>
      fun s =>
        match memory_get name s with
        | VUndefined => Throws (UnknownVariable name) s
        | VNumber n => Returns (VNumber n) s
        | _ => Throws (VariableIsNotANumber name) s
        end
  | Numeral value => ret (VNumber value)
  | Bool value => ret (VBoolean value)
  end.

(** [Block.interpret()]: the statements in order, abandoned at the first
    throw. *)
Definition interpret_block (interpret_one : Statement -> State -> Run State)
  : list Statement -> State -> Run State :=
  fix go (statements : list Statement) (s : State) : Run State :=
    match statements with
    | [] => Some (Returns tt s)
    | statement :: rest =>
        match interpret_one statement s with
        | Some (Returns _ s') => go rest s'
        | other => other
        end
    end.

(** [Statement.interpret()].  [fuel] bounds the number of iterations a
    [While] may still run; nothing else consumes it. *)
Fixpoint interpret_statement (fuel : nat) : Statement -> State -> Run State :=
  fix interpret_one (statement : Statement) (s : State) : Run State :=
    match statement with
    | VariableDeclaration id initializer =>
        if memory_has id s then Some (Throws (VariableAlreadyDeclared id) s)
        else
          match interpret initializer s with
          | Returns v s' => Some (Returns tt (memory_set id v s'))
          | Throws e s' => Some (Throws e s')
          end
    | Assignment target source =>
        if negb (memory_has target s) then Some (Throws (UnknownVariable target) s)
        else
          match interpret source s with
          | Returns v s' => Some (Returns tt (memory_set target v s'))
          | Throws e s' => Some (Throws e s')
          end
    | PrintStatement expression =>
        match interpret expression s with
        | Returns v s' => Some (Returns tt (console_log v s'))
        | Throws e s' => Some (Throws e s')
        end
    | While expression block =>
        match interpret expression s with
        | Returns v s' =>
            if truthy v then
              match fuel with
              | O => None
              | S fuel' =>
                  match interpret_block interpret_one block s' with
                  | Some (Returns _ s'') =>
                      interpret_statement fuel' (While expression block) s''
                  | other => other
                  end
              end
            else Some (Returns tt s')
        | Throws e s' => Some (Throws e s')
        end
    | FunctionStatement id args expression =>
        Some (Returns tt (memory_set id (VClosure args expression) s))
    | ExpressionStatement expression =>
        match interpret expression s with
        | Returns _ s' => Some (Returns tt s')
        | Throws e s' => Some (Throws e s')
        end
    end.

(** The seven [memory.set] calls that open [Program.interpret]. *)
Definition set_builtins (s : State) : State :=
  memory_set "ln" (VNumber Math_LN10)
    (memory_set "exp" (VNative NativeExp)
      (memory_set "π" (VNumber Math_PI)
        (memory_set "sqrt" (VNative NativeSqrt)
          (memory_set "hypot" (VNative NativeHypot)
            (memory_set "cos" (VNative NativeCos)
              (memory_set "sin" (VNative NativeSin) s)))))).

(** [Program.interpret()] *)
Definition interpret_program (fuel : nat) (body : list Statement) (s : State) : Run State :=
  interpret_block (interpret_statement fuel) body (set_builtins s).

(** The program the draft runs on itself. *)
Definition sample : list Statement :=
  [ VariableDeclaration "x" (Numeral 100);
    Assignment "x" (UnaryExp "-" (Numeral 20));
    PrintStatement (BinaryExp "*" (Numeral 9) (Identifier "x"));
    PrintStatement (Call "sqrt" [Numeral 2]);
    PrintStatement
      (ConditionalExpression (BinaryExp "<" (Numeral 3) (Numeral 2))
         (Numeral 1) (Numeral 0));
    VariableDeclaration "y" (Numeral 0);
    While (BinaryExp ">" (Numeral 10) (Identifier "y"))
      [ Assignment "y" (BinaryExp "+" (Numeral 1) (Identifier "y")) ];
    PrintStatement (Identifier "y");
    VariableDeclaration "i" (Numeral 0);
    FunctionStatement "plusFour" [Identifier "i"]
      (BinaryExp "+" (Identifier "z") (Numeral 4));
    ExpressionStatement (Call "plusFour" [Identifier "i"]);
    PrintStatement (Identifier "i") ].

End Interpreter.

(** [y := 0; while (y < 10) { y = y + 1 }; print(y)] *)
Definition count_to_ten : list Statement :=
  [ VariableDeclaration "y" (Numeral 0);
    While (BinaryExp "<" (Identifier "y") (Numeral 10))
      [ Assignment "y" (BinaryExp "+" (Identifier "y") (Numeral 1)) ];
    PrintStatement (Identifier "y") ].

(** [y := 2; while (y) { print(y); y = y - 1 }]: the guard is a number. *)
Definition count_down : list Statement :=
  [ VariableDeclaration "y" (Numeral 2);
    While (Identifier "y")
      [ PrintStatement (Identifier "y");
        Assignment "y" (BinaryExp "-" (Identifier "y") (Numeral 1)) ] ].

(** The state in which [x] is bound to 1 and nothing else is. *)
Definition x_is_one : State := memory_set "x" (VNumber 1) initial.

(** The array literal [[1, 2, 3]]. *)
Definition one_two_three : Expression :=
  ArrayLiteral [Numeral 1; Numeral 2; Numeral 3].

(** [a := [1, 2, 3]; print(a[index])] *)
Definition print_element (index : float) : list Statement :=
  [ VariableDeclaration "a" one_two_three;
    PrintStatement (Subscript (Identifier "a") (Numeral index)) ].

(** [function square(n) = n * n; print(square(args))] *)
Definition print_square (args : list Expression) : list Statement :=
  [ FunctionStatement "square" [Identifier "n"]
      (BinaryExp "*" (Identifier "n") (Identifier "n"));
    PrintStatement (Call "square" args) ].

End Global.


(** ** The earlier draft: [memory] passed to every [interpret]

    Second listing of [bella.ts].  It has no arrays, loops or function
    declarations; its expressions are annotated to return [number | boolean]. *)

Module Threaded.

(** [ConditionalExpression] keeps the field names of the draft: the first
    field, [exp_true], is the one tested. *)
Inductive Expression :=
| BinaryExp (operator : string) (left right : Expression)
| UnaryExp (operator : string) (operand : Expression)
| ConditionalExpression (exp_true condition exp_false : Expression)
| Call (callee : string) (args : list Expression)
| Identifier (name : string)
| Numeral (value : float)
| Bool (value : bool).

Inductive Statement :=
| VariableDeclaration (id : string) (initializer : Expression)
| Assignment (target : string) (source : Expression)
| PrintStatement (expression : Expression).

(** [number | boolean]: what an expression returns. *)
Inductive Scalar :=
| Number (n : float)
| Boolean (b : bool).

(** [type Value = number | boolean | ((...args: number[]) => number)] *)
Inductive Value :=
| VScalar (v : Scalar)
| VNative (f : Native).

(** One [console.log] call: [PrintStatement] writes a value, [Identifier]
    writes the [typeof] string of what it read. *)
Inductive Logged :=
| LogValue (v : Scalar)
| LogTypeof (t : string).

(** The [Map] created by [Program.interpret] is one object handed to every
    call, so it is threaded as state together with the console. *)
Record State := { memory : gmap string Value; console : list Logged }.

Definition initial : State := {| memory := ∅; console := [] |}.

Definition memory_has (k : string) (s : State) : bool :=
  bool_decide (is_Some (memory s !! k)).

Definition memory_set (k : string) (v : Value) (s : State) : State :=
  {| memory := <[k := v]> (memory s); console := console s |}.

Definition console_log (x : Logged) (s : State) : State :=
  {| memory := memory s; console := console s ++ [x] |}.

(** [typeof memory.get(k)] *)
Definition typeof (v : option Value) : string :=
  match v with
  | None => "undefined"
  | Some (VScalar (Number _)) => "number"
  | Some (VScalar (Boolean _)) => "boolean"
  | Some (VNative _) => "function"
  end.

Definition truthy (v : Scalar) : bool :=
  match v with
  | Number n => number_truthy n
  | Boolean b => b
  end.

Definition ToNumber (v : Scalar) : float :=
  match v with
  | Number n => n
  | Boolean b => if b then 1%float else 0%float
  end.

(** [l === r] *)
Definition strict_equal (l r : Scalar) : bool :=
  match l, r with
  | Number a, Number b => PrimFloat.eqb a b
  | Boolean a, Boolean b => Bool.eqb a b
  | _, _ => false
  end.

Section Interpreter.
Context `{Host}.

(** [func(...args)]: a missing argument is [undefined], which reads as NaN. *)
Definition apply_native (f : Native) (argv : list Scalar) : Scalar :=
  let first := match argv with [] => nan | x :: _ => ToNumber x end in
  match f with
  | NativeSin => Number (Math_sin first)
  | NativeCos => Number (Math_cos first)
  | NativeHypot => Number (Math_hypot (ToNumber <$> argv))
  | NativeSqrt => Number (Math_sqrt first)
  | NativeExp => Number (Math_exp first)
  end.

(** [Expression.interpret(memory)].  In [BinaryExp] every [case] evaluates
    [this.left.interpret(memory) op this.right.interpret(memory)]; the
    operators of JavaScript convert a boolean operand to a number, and [&&]
    and [||] evaluate their right operand only when the left one does not
    decide. *)
Fixpoint interpret (e : Expression) : M State Scalar :=
  match e with
  | BinaryExp operator l r =>
      let arith (f : float -> float -> float) : M State Scalar :=
        do lv <- interpret l; do rv <- interpret r;
        ret (Number (f (ToNumber lv) (ToNumber rv))) in
      let compare (f : float -> float -> bool) : M State Scalar :=
        do lv <- interpret l; do rv <- interpret r;
        ret (Boolean (f (ToNumber lv) (ToNumber rv))) in
      if String.eqb operator "+" then arith PrimFloat.add
      else if String.eqb operator "-" then arith PrimFloat.sub
      else if String.eqb operator "*" then arith PrimFloat.mul
      else if String.eqb operator "/" then arith PrimFloat.div
      else if String.eqb operator "%" then arith Number_remainder
      else if String.eqb operator "**" then arith Number_exponentiate
      else if String.eqb operator "<" then compare PrimFloat.ltb
      else if String.eqb operator "<=" then compare PrimFloat.leb
      else if String.eqb operator "==" then
        do lv <- interpret l; do rv <- interpret r;
        ret (Boolean (strict_equal lv rv))
      else if String.eqb operator "!=" then
        do lv <- interpret l; do rv <- interpret r;
        ret (Boolean (negb (strict_equal lv rv)))
      else if String.eqb operator ">=" then compare (fun a b => PrimFloat.leb b a)
      else if String.eqb operator ">" then compare (fun a b => PrimFloat.ltb b a)
      else if String.eqb operator "&&" then
        do lv <- interpret l; if truthy lv then interpret r else ret lv
      else if String.eqb operator "||" then
        do lv <- interpret l; if truthy lv then ret lv else interpret r
      else throw (UnknownOperator operator)
  | UnaryExp operator operand =>
      if String.eqb operator "-" then
        do v <- interpret operand; ret (Number (- ToNumber v)%float)
      else if String.eqb operator "!" then
        do v <- interpret operand; ret (Boolean (negb (truthy v)))
      else throw (UnknownOperator operator)
  | ConditionalExpression exp_true condition exp_false =>
      do t <- interpret exp_true;
      if truthy t then interpret condition else interpret exp_false
  | Call callee args =>
      fun s =>
        match memory s !! callee with
        | Some (VNative f) =>
            (do argv <- map_M interpret args; ret (apply_native f argv)) s
        | _ => Throws (UnknownFunction callee) s
        end
  | Identifier name =>
      fun s =>
        let value := memory s !! name in
        let s' := console_log (LogTypeof (typeof value)) s in
        match value with
        | None => Throws (UnknownVariable name) s'
        | Some (VScalar (Number n)) => Returns (Number n) s'
        | Some _ => Throws (VariableIsNotANumber name) s'
        end
  | Numeral value => ret (Number value)
  | Bool value => ret (Boolean value)
  end.

(** [Statement.interpret(memory)] *)
Definition interpret_statement (statement : Statement) : M State unit :=
  fun s =>
    match statement with
    | VariableDeclaration id initializer =>
        if memory_has id s then Throws (VariableAlreadyDeclared id) s
        else (do v <- interpret initializer;
              fun s' => Returns tt (memory_set id (VScalar v) s')) s
    | Assignment target source =>
        if negb (memory_has target s) then Throws (UnknownVariable target) s
        else (do v <- interpret source;
              fun s' => Returns tt (memory_set target (VScalar v) s')) s
    | PrintStatement expression =>
        (do v <- interpret expression;
         fun s' => Returns tt (console_log (LogValue v) s')) s
    end.

(** [Block.interpret(memory)]: the loop body is a [return], so only the
    first statement runs. *)
Definition interpret_block (statements : list Statement) : M State unit :=
  match statements with
  | [] => ret tt
  | statement :: _ => interpret_statement statement
  end.

(** The [Map] that [Program.interpret] fills before it runs the body. *)
Definition builtins : gmap string Value :=
  <["ln" := VScalar (Number Math_LN10)]>
    (<["exp" := VNative NativeExp]>
      (<["π" := VScalar (Number Math_PI)]>
        (<["sqrt" := VNative NativeSqrt]>
          (<["hypot" := VNative NativeHypot]>
            (<["cos" := VNative NativeCos]>
              (<["sin" := VNative NativeSin]> ∅)))))).

(** [Program.interpret()], started with what the console already shows. *)
Definition interpret_program (body : list Statement) (out : list Logged)
  : Outcome State unit :=
  interpret_block body {| memory := builtins; console := out |}.

End Interpreter.

End Threaded.

(** The operator strings that have a [case] in [BinaryExp.interpret] (the
    same fourteen in both drafts) and in [UnaryExp.interpret]. *)
Definition binary_operators : list string :=
  ["+"; "-"; "*"; "/"; "%"; "**"; "<"; "<="; "=="; "!="; ">="; ">"; "&&"; "||"].
Definition unary_operators : list string := ["-"; "!"].

(** The names that [Program.interpret] sets before it runs the body. *)
Definition builtin_names : list string :=
  ["sin"; "cos"; "hypot"; "sqrt"; "π"; "exp"; "ln"].

(** The state with another console, and an outcome moved to it. *)
Definition put_console (c : list Global.Value) (s : Global.State) : Global.State :=
  {| Global.memory := Global.memory s; Global.console := c |}.

Definition move_console {A} (c : list Global.Value) (o : Outcome Global.State A)
  : Outcome Global.State A :=
  match o with
  | Returns a s => Returns a (put_console c s)
  | Throws x s => Throws x (put_console c s)
  end.

(** [s'] has kept what [s] had: every line on the console, in place, and
    every name in [memory]. *)
Definition keeps_all (s s' : Global.State) : Prop :=
  Global.console s `prefix_of` Global.console s' /\
  forall k, is_Some (Global.memory s !! k) -> is_Some (Global.memory s' !! k).

(** In the earlier draft, [s'] differs from [s] by [typeof] lines added to
    the console and by nothing else. *)
Definition only_logs (s s' : Threaded.State) : Prop :=
  Threaded.memory s' = Threaded.memory s /\
  exists ts : list string,
    Threaded.console s' = Threaded.console s ++ (Threaded.LogTypeof <$> ts).

(** A host for running examples whose outcome involves none of the
    transcendental functions: each of its fields answers NaN, except that the
    hypotenuse of a single number is its absolute value. *)
Definition example_host : Host := {|
  Math_sin := fun _ => nan;
  Math_cos := fun _ => nan;
  Math_exp := fun _ => nan;
  Math_hypot := fun l => match l with [x] => PrimFloat.abs x | _ => nan end;
  Number_remainder := fun _ _ => nan;
  Number_exponentiate := fun _ _ => nan
|}.

(** The state an outcome leaves behind. *)
Definition final {St A} (o : Outcome St A) : St :=
  match o with
  | Returns _ s => s
  | Throws _ s => s
  end.

(** The kind of error an outcome reports, if it throws. *)
Definition thrown_kind {St A} (o : Outcome St A) : option ErrorKind :=
  match o with
  | Returns _ _ => None
  | Throws e _ => Some (error_kind e)
  end.

(** * Properties of the complete draft *)

Section GlobalProperties.
Context `{Host}.
Import Global.

Lemma bind_returns {St A B} (m : M St A) (k : A -> M St B) s a s' :
  m s = Returns a s' -> bind m k s = k a s'.
Proof. intros Hm. unfold bind. now rewrite Hm. Qed.

Lemma bind_throws {St A B} (m : M St A) (k : A -> M St B) s e s' :
  m s = Throws e s' -> bind m k s = Throws e s'.
Proof. intros Hm. unfold bind. now rewrite Hm. Qed.

(** If [m] and every continuation leave the state alone, so does [bind]. *)
Lemma final_bind {St A B} (m : M St A) (k : A -> M St B) s :
  final (m s) = s -> (forall a, final (k a s) = s) -> final (bind m k s) = s.
Proof.
  intros Hm Hk. unfold bind.
  destruct (m s) as [a s'|e s']; simpl in Hm; subst s'; [apply Hk | reflexivity].
Qed.

Lemma final_map_M {St A B} (f : A -> M St B) (l : list A) s :
  list_all A (fun a => forall s, final (f a s) = s) l ->
  final (map_M f l s) = s.
Proof.
  induction 1 as [|a Ha l _ IH]; simpl; [reflexivity|].
  apply final_bind; [apply Ha|]. intros b.
  apply final_bind; [apply IH|]. reflexivity.
Qed.

Lemma binary_numbers_pure operator a b s :
  final (binary_numbers operator a b s) = s.
Proof.
  unfold binary_numbers.
  repeat (match goal with |- context [String.eqb ?x ?y] => destruct (String.eqb x y) end;
          [reflexivity|]).
  reflexivity.
Qed.

(** Evaluating an expression of the complete draft leaves [memory] and the
    console as they were, whether it returns or throws. *)
Lemma interpret_pure (e : Expression) : forall s, final (interpret e s) = s.
Proof.
  induction e as [op l IHl r IHr | op e IHe | t IHt c IHc a IHa | callee args IH
                 | els IH | arr IHarr sub IHsub | name | value | value];
    intros s; simpl.
  - apply final_bind; [apply IHl|]. intros lv.
    apply final_bind; [apply IHr|]. intros rv.
    destruct lv, rv; try reflexivity. apply binary_numbers_pure.
  - destruct (String.eqb op "-").
    { apply final_bind; [apply IHe | reflexivity]. }
    destruct (String.eqb op "!"); [|reflexivity].
    apply final_bind; [apply IHe | reflexivity].
  - apply final_bind; [apply IHt|]. intros v. destruct (truthy v); auto.
  - destruct (memory_get callee s); try reflexivity.
    apply final_bind; [now apply final_map_M | reflexivity].
  - apply final_bind; [now apply final_map_M | reflexivity].
  - apply final_bind; [apply IHarr|]. intros av.
    apply final_bind; [apply IHsub|]. intros iv.
    destruct av; try reflexivity. destruct iv; reflexivity.
  - destruct (memory_get name s); reflexivity.
  - reflexivity.
  - reflexivity.
Qed.

Lemma interpret_returns_same e s v s' : interpret e s = Returns v s' -> s' = s.
Proof. intros E. pose proof (interpret_pure e s) as P. now rewrite E in P. Qed.

Lemma interpret_throws_same e s x s' : interpret e s = Throws x s' -> s' = s.
Proof. intros E. pose proof (interpret_pure e s) as P. now rewrite E in P. Qed.

Lemma binary_numbers_data operator a b s v s' :
  binary_numbers operator a b s = Returns v s' -> is_data v = true.
Proof.
  unfold binary_numbers.
  repeat (match goal with |- context [String.eqb ?x ?y] => destruct (String.eqb x y) end;
          [now intros [= <- _]|]).
  discriminate.
Qed.

Lemma array_get_data elements n :
  forallb is_data elements = true -> is_data (array_get elements n) = true.
Proof.
  intros Hd. unfold array_get.
  destruct (array_index n) as [i|]; [|reflexivity].
  destruct (i <? N.of_nat (length elements))%N; [|reflexivity].
  generalize (N.to_nat i). clear i.
  induction elements as [|x elements IH]; intros [|i]; simpl in *;
    try reflexivity; apply andb_prop in Hd as [Hx Hd]; auto.
Qed.

Lemma map_M_data (f : Expression -> M State Value) (l : list Expression) :
  list_all Expression
    (fun e => forall s v s', f e s = Returns v s' -> is_data v = true) l ->
  forall s vs s', map_M f l s = Returns vs s' -> forallb is_data vs = true.
Proof.
  induction 1 as [|e He l _ IH]; intros s vs s'; simpl.
  - now intros [= <- _].
  - unfold bind at 1. destruct (f e s) as [v s1|] eqn:Ev; [|discriminate].
    unfold bind at 1. destruct (map_M f l s1) as [vs1 s2|] eqn:Evs; [|discriminate].
    intros [= <- _]. simpl. rewrite (He _ _ _ Ev), (IH _ _ _ Evs). reflexivity.
Qed.

(** An expression never returns a function or a closure, so [Subscript] and
    the operators meet numbers, booleans, [undefined] and arrays only. *)
Lemma interpret_returns_data (e : Expression) :
  forall s v s', interpret e s = Returns v s' -> is_data v = true.
Proof.
  induction e as [op l IHl r IHr | op e IHe | t IHt c IHc a IHa | callee args IH
                 | els IH | arr IHarr sub IHsub | name | value | value];
    intros s v s'; simpl.
  - unfold bind.
    destruct (interpret l s) as [lv s1|]; [|discriminate].
    destruct (interpret r s1) as [rv s2|]; [|discriminate].
    destruct lv; try discriminate. destruct rv; try discriminate.
    apply binary_numbers_data.
  - destruct (String.eqb op "-").
    { unfold bind. destruct (interpret e s); [|discriminate]. now intros [= <- _]. }
    destruct (String.eqb op "!"); [|discriminate].
    unfold bind. destruct (interpret e s); [|discriminate]. now intros [= <- _].
  - unfold bind. destruct (interpret t s) as [tv s1|]; [|discriminate].
    destruct (truthy tv); eauto.
  - destruct (memory_get callee s); try discriminate.
    unfold bind. destruct (map_M interpret args s); [|discriminate].
    intros [= <- _]. now destruct f.
  - unfold bind. destruct (map_M interpret els s) as [vs s1|] eqn:E; [|discriminate].
    intros [= <- _]. simpl. eapply map_M_data; eauto.
  - unfold bind.
    destruct (interpret arr s) as [av s1|] eqn:Ea; [|discriminate].
    destruct (interpret sub s1) as [iv s2|]; [|discriminate].
    destruct av; try discriminate. destruct iv; try discriminate.
    intros [= <- _]. apply array_get_data. exact (IHarr _ _ _ Ea).
  - destruct (memory_get name s); try discriminate. now intros [= <- _].
  - now intros [= <- _].
  - now intros [= <- _].
Qed.

End GlobalProperties.

Section GlobalStatements.
Context `{Host}.
Import Global.

(** The [While] case of [interpret_statement], one iteration unrolled. *)
Lemma interpret_statement_While fuel c b s :
  interpret_statement fuel (While c b) s =
  match interpret c s with
  | Returns v s' =>
      if truthy v then
        match fuel with
        | O => None
        | S fuel' =>
            match interpret_block (interpret_statement fuel) b s' with
            | Some (Returns _ s'') => interpret_statement fuel' (While c b) s''
            | other => other
            end
        end
      else Some (Returns tt s')
  | Throws e s' => Some (Throws e s')
  end.
Proof. destruct fuel; reflexivity. Qed.

Lemma interpret_statement_VariableDeclaration fuel id init s :
  interpret_statement fuel (VariableDeclaration id init) s =
  if memory_has id s then Some (Throws (VariableAlreadyDeclared id) s)
  else match interpret init s with
       | Returns v s' => Some (Returns tt (memory_set id v s'))
       | Throws e s' => Some (Throws e s')
       end.
Proof. destruct fuel; reflexivity. Qed.

Lemma interpret_statement_Assignment fuel target source s :
  interpret_statement fuel (Assignment target source) s =
  if negb (memory_has target s) then Some (Throws (UnknownVariable target) s)
  else match interpret source s with
       | Returns v s' => Some (Returns tt (memory_set target v s'))
       | Throws e s' => Some (Throws e s')
       end.
Proof. destruct fuel; reflexivity. Qed.

Lemma interpret_block_mono (f g : Statement -> State -> Run State) l :
  list_all Statement (fun st => forall s r, f st s = Some r -> g st s = Some r) l ->
  forall s r, interpret_block f l s = Some r -> interpret_block g l s = Some r.
Proof.
  induction 1 as [|st Hst l _ IH]; intros s r; simpl; [auto|].
  destruct (f st s) as [o|] eqn:E; [|discriminate].
  rewrite (Hst _ _ E). destruct o; auto.
Qed.

(** More fuel never changes a run that ended. *)
Lemma interpret_statement_mono n :
  forall m, n <= m ->
  forall st s r, interpret_statement n st s = Some r ->
                 interpret_statement m st s = Some r.
Proof.
  induction n as [|n IHn]; intros m Hle st;
    induction st as [id e | target e | e | c b IHb | id args e | e];
    intros s r;
    try (destruct m; simpl; exact (fun E => E)).
  - rewrite !interpret_statement_While.
    destruct (interpret c s) as [v s'|]; [|auto].
    destruct (truthy v); [discriminate | auto].
  - rewrite !interpret_statement_While.
    destruct (interpret c s) as [v s'|]; [|auto].
    destruct (truthy v); [|auto].
    destruct m as [|m]; [lia|].
    destruct (interpret_block (interpret_statement (S n)) b s') as [o|] eqn:E;
      [|discriminate].
    rewrite (interpret_block_mono _ _ _ IHb _ _ E).
    destruct o; [|auto]. apply IHn. lia.
Qed.

End GlobalStatements.

(** ** Arithmetic *)

(** Dividing by zero gives an infinity or NaN. *)
Lemma division_by_zero (a : float) :
  (a / 0)%float = infinity \/ (a / 0)%float = neg_infinity \/ (a / 0)%float = nan.
Proof.
  rewrite <- (SF2Prim_Prim2SF (a / 0)%float), div_spec.
  change (Prim2SF 0%float) with (S754_zero false).
  destruct (Prim2SF a) as [sa | sa | | sa m e]; simpl;
    try (right; right; reflexivity);
    destruct sa; simpl; (left; reflexivity) || (right; left; reflexivity).
Qed.

Section GlobalClaims.
Context `{Host}.
Import Global.

(** C6: when both operands of a [BinaryExp] evaluate to numbers [a] and [b],
    the operators [+ - * /] return the IEEE-754 sum, difference, product and
    quotient, and [%] and [**] what the host computes for them; no operand
    value makes them throw, a zero divisor in particular gives an infinity or
    NaN; when one of the two operand values is not a number, every
    [BinaryExp] throws the must-be-a-number error, of kind [TypeError]. *)
Theorem binary_arithmetic (l r : Expression) (s s1 s2 : State) (lv rv : Value) :
  interpret l s = Returns lv s1 ->
  interpret r s1 = Returns rv s2 ->
  (forall a b, lv = VNumber a -> rv = VNumber b ->
     interpret (BinaryExp "+" l r) s = Returns (VNumber (a + b)%float) s2 /\
     interpret (BinaryExp "-" l r) s = Returns (VNumber (a - b)%float) s2 /\
     interpret (BinaryExp "*" l r) s = Returns (VNumber (a * b)%float) s2 /\
     interpret (BinaryExp "/" l r) s = Returns (VNumber (a / b)%float) s2 /\
     interpret (BinaryExp "%" l r) s = Returns (VNumber (Number_remainder a b)) s2 /\
     interpret (BinaryExp "**" l r) s = Returns (VNumber (Number_exponentiate a b)) s2 /\
     (b = 0%float ->
      exists q, interpret (BinaryExp "/" l r) s = Returns (VNumber q) s2 /\
                (q = infinity \/ q = neg_infinity \/ q = nan))) /\
  (is_number lv && is_number rv = false ->
     forall operator,
       interpret (BinaryExp operator l r) s = Throws MustBeANumber s2 /\
       error_kind MustBeANumber = TypeError).
Proof.
  intros Hl Hr. split.
  - intros a b -> ->.
    assert (E : forall operator,
               interpret (BinaryExp operator l r) s = binary_numbers operator a b s2).
    { intros operator. simpl.
      rewrite (bind_returns _ _ _ _ _ Hl), (bind_returns _ _ _ _ _ Hr).
      reflexivity. }
    rewrite !E. repeat split.
    intros ->. eexists. split; [reflexivity | apply division_by_zero].
  - intros Hn operator. split; [|reflexivity]. simpl.
    rewrite (bind_returns _ _ _ _ _ Hl), (bind_returns _ _ _ _ _ Hr).
    destruct lv; try reflexivity. destruct rv; try reflexivity. discriminate.
Qed.

(** C7: a [VariableDeclaration] of a name that [memory] already holds throws
    the already-declared error ([RedeclarationError]) and an [Assignment] to a
    name that [memory] does not hold throws the unknown-variable error
    ([UnboundVariableError]), whatever the state and the expression; in the
    other cases, once the expression has returned [v], the statement returns
    and [memory] maps the name to [v]. *)
Theorem declaration_and_assignment (fuel : nat) (name : string) (e : Expression)
    (s : State) :
  (is_Some (memory s !! name) ->
     interpret_statement fuel (VariableDeclaration name e) s
       = Some (Throws (VariableAlreadyDeclared name) s) /\
     error_kind (VariableAlreadyDeclared name) = RedeclarationError) /\
  (memory s !! name = None ->
     interpret_statement fuel (Assignment name e) s
       = Some (Throws (UnknownVariable name) s) /\
     error_kind (UnknownVariable name) = UnboundVariableError) /\
  (forall v s', interpret e s = Returns v s' ->
     (memory s !! name = None ->
        exists s'', interpret_statement fuel (VariableDeclaration name e) s
                      = Some (Returns tt s'') /\
                    memory s'' = <[name := v]> (memory s) /\
                    console s'' = console s) /\
     (is_Some (memory s !! name) ->
        exists s'', interpret_statement fuel (Assignment name e) s
                      = Some (Returns tt s'') /\
                    memory s'' = <[name := v]> (memory s) /\
                    console s'' = console s)).
Proof.
  rewrite interpret_statement_VariableDeclaration, interpret_statement_Assignment.
  unfold memory_has.
  split; [|split].
  - intros Hs. split; [|reflexivity]. now rewrite bool_decide_eq_true_2.
  - intros Hn. split; [|reflexivity].
    rewrite bool_decide_eq_false_2; [reflexivity|].
    rewrite Hn. apply is_Some_None.
  - intros v s' He. pose proof (interpret_returns_same _ _ _ _ He) as ->.
    rewrite He. split.
    + intros Hn.
      rewrite bool_decide_eq_false_2 by (rewrite Hn; apply is_Some_None).
      eexists. split; [reflexivity|]. split; reflexivity.
    + intros Hs. rewrite bool_decide_eq_true_2 by assumption. simpl.
      eexists. split; [reflexivity|]. split; reflexivity.
Qed.

(** C10: in [VariableDeclaration] and [Assignment] the test on [memory] comes
    first: when it fails, the statement throws its own error in the unchanged
    state whatever the expression is, so the expression is not evaluated;
    and whenever either statement throws, [memory] is what it was before. *)
Theorem declaration_and_assignment_atomic (fuel : nat) (name : string) (s : State) :
  (is_Some (memory s !! name) ->
     forall e, interpret_statement fuel (VariableDeclaration name e) s
               = Some (Throws (VariableAlreadyDeclared name) s)) /\
  (memory s !! name = None ->
     forall e, interpret_statement fuel (Assignment name e) s
               = Some (Throws (UnknownVariable name) s)) /\
  (forall e x s',
     interpret_statement fuel (VariableDeclaration name e) s = Some (Throws x s') \/
     interpret_statement fuel (Assignment name e) s = Some (Throws x s') ->
     memory s' = memory s) /\
  (forall e x s',
     interpret e s = Throws x s' ->
     (memory s !! name = None ->
        interpret_statement fuel (VariableDeclaration name e) s = Some (Throws x s)) /\
     (is_Some (memory s !! name) ->
        interpret_statement fuel (Assignment name e) s = Some (Throws x s))).
Proof.
  split; [|split; [|split]].
  - intros Hs e. rewrite interpret_statement_VariableDeclaration.
    unfold memory_has. now rewrite bool_decide_eq_true_2.
  - intros Hn e. rewrite interpret_statement_Assignment.
    unfold memory_has. rewrite bool_decide_eq_false_2; [reflexivity|].
    rewrite Hn. apply is_Some_None.
  - intros e x s'.
    rewrite interpret_statement_VariableDeclaration, interpret_statement_Assignment.
    intros [E|E].
    + destruct (memory_has name s); [congruence|].
      destruct (interpret e s) as [v s0|x0 s0] eqn:Ee; [discriminate|].
      apply interpret_throws_same in Ee. congruence.
    + destruct (negb (memory_has name s)); [congruence|].
      destruct (interpret e s) as [v s0|x0 s0] eqn:Ee; [discriminate|].
      apply interpret_throws_same in Ee. congruence.
  - intros e x s' He. pose proof (interpret_throws_same _ _ _ _ He) as ->.
    split.
    + intros Hn. rewrite interpret_statement_VariableDeclaration.
      unfold memory_has.
      rewrite bool_decide_eq_false_2 by (rewrite Hn; apply is_Some_None).
      now rewrite He.
    + intros Hs. rewrite interpret_statement_Assignment.
      unfold memory_has. rewrite bool_decide_eq_true_2 by assumption. simpl.
      now rewrite He.
Qed.

End GlobalClaims.

(** ** Conditionals and logical operators, in both drafts *)

Section BranchingClaims.
Context `{Host}.

(** C2: a [ConditionalExpression] evaluates its first operand; if that throws,
    the conditional throws the same error and no branch is evaluated; if it
    returns a truthy value the conditional is the evaluation of the second
    operand, otherwise of the third, continued from the state the test left:
    the outcome and the effects are those of the selected branch alone, so the
    other branch is not evaluated.  This holds in both drafts.  In every
    state, [3 < 2 ? 1 : 0] returns 0, [true ? 1 : x] returns 1 and
    [false ? x : 0] returns 0 whether or not [x] is bound (in the earlier
    draft without the [typeof] line that reading [x] would write), and a
    conditional whose test reads an unbound variable throws the
    unknown-variable error whatever its branches are. *)
Theorem conditional_evaluates_one_branch :
  (forall (test consequent alternate : Global.Expression) (s : Global.State),
     match Global.interpret test s with
     | Returns v s' =>
         Global.interpret (Global.ConditionalExpression test consequent alternate) s
         = Global.interpret (if Global.truthy v then consequent else alternate) s'
     | Throws e s' =>
         Global.interpret (Global.ConditionalExpression test consequent alternate) s
         = Throws e s'
     end) /\
  (forall (exp_true condition exp_false : Threaded.Expression) (s : Threaded.State),
     match Threaded.interpret exp_true s with
     | Returns v s' =>
         Threaded.interpret (Threaded.ConditionalExpression exp_true condition exp_false) s
         = Threaded.interpret (if Threaded.truthy v then condition else exp_false) s'
     | Throws e s' =>
         Threaded.interpret (Threaded.ConditionalExpression exp_true condition exp_false) s
         = Throws e s'
     end) /\
  (forall (s : Global.State) (x : string) (n m : float),
     Global.interpret
       (Global.ConditionalExpression
          (Global.BinaryExp "<" (Global.Numeral 3) (Global.Numeral 2))
          (Global.Numeral 1) (Global.Numeral 0)) s
     = Returns (Global.VNumber 0) s /\
     Global.interpret
       (Global.ConditionalExpression (Global.Bool true)
          (Global.Numeral n) (Global.Identifier x)) s
     = Returns (Global.VNumber n) s /\
     Global.interpret
       (Global.ConditionalExpression (Global.Bool false)
          (Global.Identifier x) (Global.Numeral m)) s
     = Returns (Global.VNumber m) s /\
     (Global.memory s !! x = None ->
      forall consequent alternate,
        Global.interpret
          (Global.ConditionalExpression (Global.Identifier x) consequent alternate) s
        = Throws (UnknownVariable x) s)) /\
  (forall (s : Threaded.State) (x : string) (n m : float),
     Threaded.interpret
       (Threaded.ConditionalExpression
          (Threaded.BinaryExp "<" (Threaded.Numeral 3) (Threaded.Numeral 2))
          (Threaded.Numeral 1) (Threaded.Numeral 0)) s
     = Returns (Threaded.Number 0) s /\
     Threaded.interpret
       (Threaded.ConditionalExpression (Threaded.Bool true)
          (Threaded.Numeral n) (Threaded.Identifier x)) s
     = Returns (Threaded.Number n) s /\
     Threaded.interpret
       (Threaded.ConditionalExpression (Threaded.Bool false)
          (Threaded.Identifier x) (Threaded.Numeral m)) s
     = Returns (Threaded.Number m) s /\
     (Threaded.memory s !! x = None ->
      forall condition exp_false,
        Threaded.interpret
          (Threaded.ConditionalExpression (Threaded.Identifier x) condition exp_false) s
        = Throws (UnknownVariable x)
            (Threaded.console_log (Threaded.LogTypeof "undefined") s))).
Proof.
  split; [|split; [|split]].
  - intros t c a s; simpl; unfold bind.
    destruct (Global.interpret t s) as [v s'|e s']; [|reflexivity].
    now destruct (Global.truthy v).
  - intros t c a s; simpl; unfold bind.
    destruct (Threaded.interpret t s) as [v s'|e s']; [|reflexivity].
    now destruct (Threaded.truthy v).
  - intros s x n m. split; [reflexivity|]. split; [reflexivity|].
    split; [reflexivity|].
    intros Hx c a. simpl. unfold bind, Global.memory_get. now rewrite Hx.
  - intros s x n m. split; [reflexivity|]. split; [reflexivity|].
    split; [reflexivity|].
    intros Hx c a. simpl. unfold bind. now rewrite Hx.
Qed.

(** In the complete draft a [BinaryExp] evaluates its right operand whenever
    the left one has returned, whatever the operator. *)
Lemma global_binary_is_eager (operator : string) (l r : Global.Expression)
    (s s1 s2 : Global.State) (lv : Global.Value) (e : Error) :
  Global.interpret l s = Returns lv s1 ->
  Global.interpret r s1 = Throws e s2 ->
  Global.interpret (Global.BinaryExp operator l r) s = Throws e s2.
Proof.
  intros Hl Hr. simpl.
  now rewrite (bind_returns _ _ _ _ _ Hl), (bind_throws _ _ _ _ _ Hr).
Qed.

(** In the earlier draft [&&] and [||] stop at a left operand that decides. *)
Lemma threaded_logical_short_circuit (l r : Threaded.Expression)
    (s s1 : Threaded.State) (lv : Threaded.Scalar) :
  Threaded.interpret l s = Returns lv s1 ->
  (Threaded.truthy lv = false ->
     Threaded.interpret (Threaded.BinaryExp "&&" l r) s = Returns lv s1) /\
  (Threaded.truthy lv = true ->
     Threaded.interpret (Threaded.BinaryExp "||" l r) s = Returns lv s1).
Proof.
  intros Hl. split; intros Ht.
  - change (Threaded.interpret (Threaded.BinaryExp "&&" l r) s)
      with (bind (Threaded.interpret l)
              (fun lv => if Threaded.truthy lv then Threaded.interpret r else ret lv) s).
    rewrite (bind_returns _ _ _ _ _ Hl). now rewrite Ht.
  - change (Threaded.interpret (Threaded.BinaryExp "||" l r) s)
      with (bind (Threaded.interpret l)
              (fun lv => if Threaded.truthy lv then ret lv else Threaded.interpret r) s).
    rewrite (bind_returns _ _ _ _ _ Hl). now rewrite Ht.
Qed.

(** C1: the complete draft does not short-circuit.  With a left operand
    that is [false] under [&&], or [true] under [||], and a right operand that
    reads an undeclared variable, [BinaryExp.interpret] throws the error of
    the right operand, in every state that does not hold the variable; the
    earlier draft returns the left value on the same input. *)
Theorem logical_operators_evaluate_right_operand (name : string) :
  (forall s : Global.State,
     Global.memory s !! name = None ->
     Global.interpret
       (Global.BinaryExp "&&" (Global.Bool false) (Global.Identifier name)) s
       = Throws (UnknownVariable name) s /\
     Global.interpret
       (Global.BinaryExp "||" (Global.Bool true) (Global.Identifier name)) s
       = Throws (UnknownVariable name) s) /\
  (forall s : Threaded.State,
     Threaded.interpret
       (Threaded.BinaryExp "&&" (Threaded.Bool false) (Threaded.Identifier name)) s
       = Returns (Threaded.Boolean false) s /\
     Threaded.interpret
       (Threaded.BinaryExp "||" (Threaded.Bool true) (Threaded.Identifier name)) s
       = Returns (Threaded.Boolean true) s).
Proof.
  split.
  - intros s Hn.
    assert (Hr : Global.interpret (Global.Identifier name) s
                 = Throws (UnknownVariable name) s).
    { simpl. unfold Global.memory_get. now rewrite Hn. }
    split; eapply global_binary_is_eager; (reflexivity || exact Hr).
  - intros s. split.
    + now apply (threaded_logical_short_circuit (Threaded.Bool false) _ s s
                   (Threaded.Boolean false)).
    + now apply (threaded_logical_short_circuit (Threaded.Bool true) _ s s
                   (Threaded.Boolean true)).
Qed.

End BranchingClaims.

(** ** Calls and built-ins *)

Section CallClaims.
Context `{Host}.

(** C3: [Call.interpret] of the complete draft accepts native functions
    only.  After a [FunctionStatement] has stored the pair of parameters and
    body under [id], every [Call] of [id] throws the not-a-function error
    before it evaluates an argument, whatever the number of arguments: the
    body is never evaluated and no arity is checked. *)
Theorem declared_function_is_not_callable (fuel : nat) (id : string)
    (params args : list Global.Expression) (body : Global.Expression)
    (s : Global.State) :
  exists s',
    Global.interpret_statement fuel (Global.FunctionStatement id params body) s
      = Some (Returns tt s') /\
    Global.memory s' !! id = Some (Global.VClosure params body) /\
    Global.interpret (Global.Call id args) s' = Throws (ValueIsNotAFunction id) s' /\
    error_kind (ValueIsNotAFunction id) = NotCallableError.
Proof.
  exists (Global.memory_set id (Global.VClosure params body) s).
  split; [destruct fuel; reflexivity|].
  assert (L : Global.memory (Global.memory_set id (Global.VClosure params body) s) !! id
              = Some (Global.VClosure params body)) by apply lookup_insert_eq.
  split; [exact L|]. split; [|reflexivity].
  simpl. unfold Global.memory_get. now rewrite L.
Qed.

(** C8: [Program.interpret] binds [ln] to the number [Math.LN10], in both
    drafts, so a [Call] of [ln] throws instead of returning a logarithm; [π]
    is bound to the number [Math.PI]. *)
Theorem ln_is_bound_to_a_number (x : float) :
  (forall s : Global.State,
     let s0 := Global.set_builtins s in
     Global.memory s0 !! "ln" = Some (Global.VNumber Math_LN10) /\
     Global.interpret (Global.Call "ln" [Global.Numeral x]) s0
       = Throws (ValueIsNotAFunction "ln") s0 /\
     Global.memory s0 !! "π" = Some (Global.VNumber Math_PI)) /\
  (forall out : list Threaded.Logged,
     let s0 := {| Threaded.memory := Threaded.builtins; Threaded.console := out |} in
     Threaded.memory s0 !! "ln" = Some (Threaded.VScalar (Threaded.Number Math_LN10)) /\
     Threaded.interpret (Threaded.Call "ln" [Threaded.Numeral x]) s0
       = Throws (UnknownFunction "ln") s0 /\
     Threaded.memory s0 !! "π" = Some (Threaded.VScalar (Threaded.Number Math_PI))).
Proof.
  split.
  - intros s s0.
    assert (L : Global.memory s0 !! "ln" = Some (Global.VNumber Math_LN10))
      by apply lookup_insert_eq.
    split; [exact L|]. split.
    + simpl. unfold Global.memory_get. now rewrite L.
    + subst s0. unfold Global.set_builtins. simpl.
      rewrite !lookup_insert_ne by discriminate. apply lookup_insert_eq.
  - intros out s0. repeat split.
Qed.

End CallClaims.

(** ** Side effects of expressions *)

Section EffectClaims.
Context `{Host}.

(** C9: in the earlier draft [Identifier.interpret] writes the [typeof] of
    the value it reads to the console before it returns or throws, so
    evaluating an expression has an observable effect. *)
Theorem identifier_writes_to_console (name : string) (s : Threaded.State) :
  Threaded.console (final (Threaded.interpret (Threaded.Identifier name) s))
  = Threaded.console s ++ [Threaded.LogTypeof (Threaded.typeof (Threaded.memory s !! name))].
Proof.
  simpl. destruct (Threaded.memory s !! name) as [[[n|b]|f]|]; reflexivity.
Qed.

End EffectClaims.

(** ** Subscripts and loops in the complete draft *)

Section ArrayAndLoopClaims.
Context `{Host}.
Import Global.

(** C4 as the code has it: [Subscript.interpret] evaluates the array operand,
    then the subscript operand, and only then checks their types.  An error of
    the array operand is thrown whatever the subscript operand is; once the
    array operand has returned, whatever its value, an error of the subscript
    operand is thrown; so [true[x]] and [x[true]] with [x] unbound throw the
    unknown-variable error, not a type error.  Once both have returned, a
    value that is not an array, or else a subscript that is not a number,
    throws an error of kind [TypeError]; any number is accepted as a
    subscript, and the result is the element at that index when the number is
    an integer from 0 up to the length, and [undefined], without an error, for
    every other number.  So [[1, 2, 3][1]] is 2, while index 5 and index 1.5
    give [undefined]; and a variable bound to an array cannot be read, since
    [Identifier.interpret] throws for every value that is not a number. *)
Theorem subscript_checks_types_only (array subscript : Expression) (s : State) :
  (forall x s1, interpret array s = Throws x s1 ->
     interpret (Subscript array subscript) s = Throws x s1) /\
  (forall arrayValue s1, interpret array s = Returns arrayValue s1 ->
     (forall x s2, interpret subscript s1 = Throws x s2 ->
        interpret (Subscript array subscript) s = Throws x s2) /\
     (forall subscriptValue s2, interpret subscript s1 = Returns subscriptValue s2 ->
        ((forall elements, arrayValue <> VArray elements) ->
           interpret (Subscript array subscript) s
           = Throws SubscriptedItemMustBeAnArray s2 /\
           error_kind SubscriptedItemMustBeAnArray = TypeError) /\
        (forall elements, arrayValue = VArray elements ->
           (is_number subscriptValue = false ->
              interpret (Subscript array subscript) s
              = Throws SubscriptValueMustBeANumber s2 /\
              error_kind SubscriptValueMustBeANumber = TypeError) /\
           (forall n, subscriptValue = VNumber n ->
              interpret (Subscript array subscript) s
              = Returns (array_get elements n) s2 /\
              (forall i, array_index n = Some i ->
                 (i < N.of_nat (length elements))%N ->
                 array_get elements n = default VUndefined (elements !! N.to_nat i)) /\
              (forall i, array_index n = Some i ->
                 (N.of_nat (length elements) <= i)%N ->
                 array_get elements n = VUndefined) /\
              (array_index n = None -> array_get elements n = VUndefined))))) /\
  interpret (Subscript one_two_three (Numeral 1)) s = Returns (VNumber 2) s /\
  interpret (Subscript one_two_three (Numeral 5)) s = Returns VUndefined s /\
  interpret (Subscript one_two_three (Numeral 1.5)) s = Returns VUndefined s /\
  (forall name, memory s !! name = None ->
     interpret (Subscript (Bool true) (Identifier name)) s
     = Throws (UnknownVariable name) s /\
     interpret (Subscript (Identifier name) (Bool true)) s
     = Throws (UnknownVariable name) s) /\
  (forall name elements, memory s !! name = Some (VArray elements) ->
     forall index,
       interpret (Subscript (Identifier name) index) s = Throws (VariableIsNotANumber name) s /\
       error_kind (VariableIsNotANumber name) = TypeError).
Proof.
  assert (Unfold : interpret (Subscript array subscript) =
            bind (interpret array) (fun arrayValue =>
              bind (interpret subscript) (fun subscriptValue =>
                match arrayValue with
                | VArray elements =>
                    match subscriptValue with
                    | VNumber n => ret (array_get elements n)
                    | _ => throw SubscriptValueMustBeANumber
                    end
                | _ => throw SubscriptedItemMustBeAnArray
                end))) by reflexivity.
  split; [|split].
  - intros x s1 Ha. rewrite Unfold. now rewrite (bind_throws _ _ _ _ _ Ha).
  - intros arrayValue s1 Ha. split.
    + intros x s2 Hs. rewrite Unfold, (bind_returns _ _ _ _ _ Ha).
      now rewrite (bind_throws _ _ _ _ _ Hs).
    + intros subscriptValue s2 Hs.
      assert (E : interpret (Subscript array subscript) s =
                  match arrayValue with
                  | VArray elements =>
                      match subscriptValue with
                      | VNumber n => Returns (array_get elements n) s2
                      | _ => Throws SubscriptValueMustBeANumber s2
                      end
                  | _ => Throws SubscriptedItemMustBeAnArray s2
                  end).
      { rewrite Unfold, (bind_returns _ _ _ _ _ Ha), (bind_returns _ _ _ _ _ Hs).
        destruct arrayValue; try reflexivity. destruct subscriptValue; reflexivity. }
      split.
      * intros Hna. split; [|reflexivity]. rewrite E.
        destruct arrayValue; try reflexivity. now destruct (Hna elements).
      * intros elements ->. split.
        -- intros Hn. split; [|reflexivity]. rewrite E.
           destruct subscriptValue; try reflexivity. discriminate.
        -- intros n ->. split; [exact E|]. unfold array_get.
           split; [|split].
           ++ intros i -> Hlt. apply N.ltb_lt in Hlt. now rewrite Hlt.
           ++ intros i -> Hge. apply N.ltb_ge in Hge. now rewrite Hge.
           ++ now intros ->.
  - split; [reflexivity|]. split; [reflexivity|]. split; [reflexivity|]. split.
    + intros name Hm.
      split; cbv [interpret bind ret throw memory_get]; now rewrite Hm.
    + intros name elements Hm index. split; [|reflexivity].
      simpl. unfold bind, memory_get. now rewrite Hm.
Qed.

Lemma interpret_block_fuel_mono n m (l : list Statement) :
  n <= m ->
  forall s r, interpret_block (interpret_statement n) l s = Some r ->
              interpret_block (interpret_statement m) l s = Some r.
Proof.
  intros Hle. apply interpret_block_mono.
  induction l as [|st l IH]; constructor; [|exact IH].
  intros s r. now apply interpret_statement_mono.
Qed.

(** A [While] that returns leaves a state in which its guard is falsy. *)
Lemma while_returns_on_falsy c b fuel :
  forall s s_end,
    interpret_statement fuel (While c b) s = Some (Returns tt s_end) ->
    exists v, interpret c s_end = Returns v s_end /\ truthy v = false.
Proof.
  induction fuel as [|fuel IH]; intros s s_end; rewrite interpret_statement_While;
    destruct (interpret c s) as [v s'|e s'] eqn:Ec; try discriminate;
    pose proof (interpret_returns_same _ _ _ _ Ec) as ->;
    destruct (truthy v) eqn:Tv; try discriminate.
  - intros [= <-]. eauto.
  - destruct (interpret_block (interpret_statement (S fuel)) b s) as [[[] s''|]|];
      try discriminate.
    apply IH.
  - intros [= <-]. eauto.
Qed.

(** C5 as the code has it: [While.interpret] tests the value of its guard
    for truthiness and checks no type.  If the guard throws, the loop throws
    the same error; if the guard returns a falsy value ([false], 0, NaN,
    [undefined]) the loop returns at once; if it returns a truthy value the
    block runs and the loop starts again, so a loop that returns has ended on
    a falsy guard.  Starting from [y] bound to 0, the loop on [y < 10] that
    adds 1 to [y] ends, given room for ten iterations, and the program prints
    10. *)
Theorem while_tests_truthiness (c : Expression) (b : list Statement) (s : State) :
  (forall e s', interpret c s = Throws e s' ->
     forall fuel, interpret_statement fuel (While c b) s = Some (Throws e s')) /\
  (forall v s', interpret c s = Returns v s' -> truthy v = false ->
     forall fuel, interpret_statement fuel (While c b) s = Some (Returns tt s')) /\
  (forall v s', interpret c s = Returns v s' -> truthy v = true ->
     forall fuel,
       interpret_statement (S fuel) (While c b) s =
       match interpret_block (interpret_statement (S fuel)) b s' with
       | Some (Returns _ s'') => interpret_statement fuel (While c b) s''
       | other => other
       end) /\
  (forall fuel s_end,
     interpret_statement fuel (While c b) s = Some (Returns tt s_end) ->
     exists v, interpret c s_end = Returns v s_end /\ truthy v = false) /\
  (forall fuel, 10 <= fuel ->
     exists s_end,
       interpret_program fuel count_to_ten initial = Some (Returns tt s_end) /\
       console s_end = [VNumber 10] /\
       memory s_end !! "y" = Some (VNumber 10)).
Proof.
  split; [|split; [|split; [|split]]].
  - intros e s' Ec fuel. rewrite interpret_statement_While. now rewrite Ec.
  - intros v s' Ec Tv fuel. rewrite interpret_statement_While. now rewrite Ec, Tv.
  - intros v s' Ec Tv fuel. rewrite interpret_statement_While. now rewrite Ec, Tv.
  - intros fuel s_end. apply while_returns_on_falsy.
  - intros fuel Hfuel.
    destruct (interpret_program 10 count_to_ten initial) as [[[] s_end|]|] eqn:E;
      try (vm_compute in E; discriminate).
    exists s_end. split.
    + unfold interpret_program in *.
      now apply (interpret_block_fuel_mono 10 fuel).
    + vm_compute in E. injection E as <-. split; reflexivity.
Qed.

End ArrayAndLoopClaims.

(** * Properties of the earlier draft *)

Section ThreadedProperties.
Context `{Host}.
Import Threaded.

Lemma keeps_memory_bind {A B} (m : M State A) (k : A -> M State B) :
  (forall s, memory (final (m s)) = memory s) ->
  (forall a s, memory (final (k a s)) = memory s) ->
  forall s, memory (final (bind m k s)) = memory s.
Proof.
  intros Hm Hk s. unfold bind. specialize (Hm s).
  destruct (m s) as [a s'|e s']; simpl in Hm; [|exact Hm].
  now rewrite Hk.
Qed.

Lemma keeps_memory_map_M {A B} (f : A -> M State B) (l : list A) :
  list_all A (fun a => forall s, memory (final (f a s)) = memory s) l ->
  forall s, memory (final (map_M f l s)) = memory s.
Proof.
  induction 1 as [|a Ha l _ IH]; simpl; [reflexivity|].
  apply keeps_memory_bind; [exact Ha|]. intros b.
  apply keeps_memory_bind; [exact IH|]. reflexivity.
Qed.

Local Ltac keeps :=
  repeat first
    [ reflexivity
    | assumption
    | apply keeps_memory_bind; [assumption | intros ?]
    | match goal with |- context [if truthy ?v then _ else _] => destruct (truthy v) end
    | intros ? ].

(** Evaluating an expression of the earlier draft never changes [memory];
    what it changes is the console. *)
Lemma threaded_interpret_keeps_memory (e : Expression) :
  forall s, memory (final (interpret e s)) = memory s.
Proof.
  induction e as [op l IHl r IHr | op e IHe | t IHt c IHc a IHa | callee args IH
                 | name | value | value]; simpl.
  - repeat (match goal with |- context [String.eqb ?x ?y] => destruct (String.eqb x y) end;
            [keeps|]).
    reflexivity.
  - repeat (match goal with |- context [String.eqb ?x ?y] => destruct (String.eqb x y) end;
            [keeps|]).
    reflexivity.
  - keeps.
  - intros s. destruct (memory s !! callee) as [[v|f]|]; try reflexivity.
    apply keeps_memory_bind; [now apply keeps_memory_map_M | reflexivity].
  - intros s. destruct (memory s !! name) as [[[n|b]|f]|]; reflexivity.
  - reflexivity.
  - reflexivity.
Qed.

End ThreadedProperties.

(** * The claims on concrete programs *)

(** The sample program of the complete draft prints -180, the square root of
    2, 0 and 10, and then stops on its call of the declared [plusFour]. *)
Example sample_run :
  match @Global.interpret_program example_host 10 Global.sample Global.initial with
  | Some (Throws e s) => (Some e, Global.console s)
  | _ => (None, [])
  end
  = (Some (ValueIsNotAFunction "plusFour"),
     [Global.VNumber (-180); Global.VNumber 0x1.6a09e667f3bcdp+0;
      Global.VNumber 0; Global.VNumber 10]).
Proof. vm_compute. reflexivity. Qed.

(** [square(5)] and [square(1, 2)] stop on the same error, with nothing
    printed. *)
Example square_run :
  (thrown_kind <$> @Global.interpret_program example_host 0
     (Global.print_square [Global.Numeral 5]) Global.initial)
  = Some (Some NotCallableError) /\
  (thrown_kind <$> @Global.interpret_program example_host 0
     (Global.print_square [Global.Numeral 1; Global.Numeral 2]) Global.initial)
  = Some (Some NotCallableError).
Proof. split; vm_compute; reflexivity. Qed.

(** Counterexample to C4 as stated: index 5 of [[1, 2, 3]] returns
    [undefined] and raises nothing; so does index 1.5; and after [a := [1, 2,
    3]], printing [a[1]] stops on the variable-is-not-a-number error instead
    of printing 2. *)
Lemma subscript_out_of_range_returns_undefined :
  @Global.interpret example_host
    (Global.Subscript Global.one_two_three (Global.Numeral 5)) Global.initial
  = Returns Global.VUndefined Global.initial /\
  @Global.interpret example_host
    (Global.Subscript Global.one_two_three (Global.Numeral 1.5)) Global.initial
  = Returns Global.VUndefined Global.initial /\
  @Global.interpret_program example_host 0 (Global.print_element 1) Global.initial
  = Some (Throws (VariableIsNotANumber "a")
            (Global.memory_set "a"
               (Global.VArray [Global.VNumber 1; Global.VNumber 2; Global.VNumber 3])
               (Global.set_builtins Global.initial))) /\
  (thrown_kind <$> @Global.interpret_program example_host 0
     (Global.print_element 5) Global.initial)
  <> Some (Some IndexOutOfRangeError).
Proof.
  split; [reflexivity|]. split; [reflexivity|].
  split; [vm_compute; reflexivity|]. vm_compute. discriminate.
Qed.

(** Counterexample to C5 as stated: a guard that evaluates to the number 0
    ends the loop without an error, and a loop guarded by the number [y] runs
    its block while [y] is not 0: [count_down] prints 2 and 1 and returns. *)
Lemma while_accepts_number_guard :
  @Global.interpret_statement example_host 0
    (Global.While (Global.Numeral 0) [Global.PrintStatement (Global.Numeral 1)])
    Global.initial
  = Some (Returns tt Global.initial) /\
  @Global.interpret_program example_host 2 Global.count_down Global.initial
  = Some (Returns tt
            {| Global.memory :=
                 <["y" := Global.VNumber 0]>
                   (Global.memory (Global.set_builtins Global.initial));
               Global.console := [Global.VNumber 2; Global.VNumber 1] |}).
Proof. split; vm_compute; reflexivity. Qed.

(** [binary_arithmetic] on [1 + 2], [1 / 0] and [1 + true]. *)
Lemma binary_arithmetic_witness :
  @Global.interpret example_host
    (Global.BinaryExp "+" (Global.Numeral 1) (Global.Numeral 2)) Global.initial
  = Returns (Global.VNumber 3) Global.initial /\
  @Global.interpret example_host
    (Global.BinaryExp "/" (Global.Numeral 1) (Global.Numeral 0)) Global.initial
  = Returns (Global.VNumber infinity) Global.initial /\
  @Global.interpret example_host
    (Global.BinaryExp "+" (Global.Numeral 1) (Global.Bool true)) Global.initial
  = Throws MustBeANumber Global.initial.
Proof.
  split; [|split].
  - exact (proj1 (proj1 (@binary_arithmetic example_host
             (Global.Numeral 1) (Global.Numeral 2)
             Global.initial Global.initial Global.initial _ _ eq_refl eq_refl)
             1%float 2%float eq_refl eq_refl)).
  - exact (proj1 (proj2 (proj2 (proj2 (proj1 (@binary_arithmetic example_host
             (Global.Numeral 1) (Global.Numeral 0)
             Global.initial Global.initial Global.initial _ _ eq_refl eq_refl)
             1%float 0%float eq_refl eq_refl))))).
  - exact (proj1 (proj2 (@binary_arithmetic example_host
             (Global.Numeral 1) (Global.Bool true)
             Global.initial Global.initial Global.initial _ _ eq_refl eq_refl)
             eq_refl "+")).
Defined.

(** [logical_operators_evaluate_right_operand] in the empty state. *)
Lemma logical_operators_evaluate_right_operand_witness :
  Global.memory Global.initial !! "missing" = None /\
  @Global.interpret example_host
    (Global.BinaryExp "&&" (Global.Bool false) (Global.Identifier "missing"))
    Global.initial
  = Throws (UnknownVariable "missing") Global.initial /\
  @Global.interpret example_host
    (Global.BinaryExp "||" (Global.Bool true) (Global.Identifier "missing"))
    Global.initial
  = Throws (UnknownVariable "missing") Global.initial.
Proof.
  split; [reflexivity|].
  exact (proj1 (@logical_operators_evaluate_right_operand example_host "missing")
           Global.initial eq_refl).
Defined.

(** [declaration_and_assignment] where [x] is bound and where it is not. *)
Lemma declaration_and_assignment_witness :
  is_Some (Global.memory Global.x_is_one !! "x") /\
  Global.memory Global.initial !! "x" = None /\
  @Global.interpret_statement example_host 0
    (Global.VariableDeclaration "x" (Global.Numeral 2)) Global.x_is_one
  = Some (Throws (VariableAlreadyDeclared "x") Global.x_is_one) /\
  @Global.interpret_statement example_host 0
    (Global.Assignment "x" (Global.Numeral 2)) Global.initial
  = Some (Throws (UnknownVariable "x") Global.initial) /\
  (exists s'',
     @Global.interpret_statement example_host 0
       (Global.VariableDeclaration "x" (Global.Numeral 2)) Global.initial
     = Some (Returns tt s'') /\
     Global.memory s'' = <["x" := Global.VNumber 2]> (Global.memory Global.initial) /\
     Global.console s'' = Global.console Global.initial) /\
  (exists s'',
     @Global.interpret_statement example_host 0
       (Global.Assignment "x" (Global.Numeral 2)) Global.x_is_one
     = Some (Returns tt s'') /\
     Global.memory s'' = <["x" := Global.VNumber 2]> (Global.memory Global.x_is_one) /\
     Global.console s'' = Global.console Global.x_is_one).
Proof.
  assert (Hs : is_Some (Global.memory Global.x_is_one !! "x"))
    by (exists (Global.VNumber 1); reflexivity).
  pose proof (@declaration_and_assignment example_host 0 "x" (Global.Numeral 2)
                Global.x_is_one) as [Hdecl [_ Hset]].
  pose proof (@declaration_and_assignment example_host 0 "x" (Global.Numeral 2)
                Global.initial) as [_ [Hassign Hnew]].
  split; [exact Hs|]. split; [reflexivity|].
  split; [exact (proj1 (Hdecl Hs))|].
  split; [exact (proj1 (Hassign eq_refl))|].
  split.
  - exact (proj1 (Hnew _ _ eq_refl) eq_refl).
  - exact (proj2 (Hset _ _ eq_refl) Hs).
Defined.

(** [declaration_and_assignment_atomic] on an initializer that throws. *)
Lemma declaration_and_assignment_atomic_witness :
  is_Some (Global.memory Global.x_is_one !! "x") /\
  Global.memory Global.initial !! "x" = None /\
  @Global.interpret example_host (Global.Identifier "missing") Global.initial
  = Throws (UnknownVariable "missing") Global.initial /\
  @Global.interpret_statement example_host 0
    (Global.VariableDeclaration "x" (Global.Identifier "missing")) Global.x_is_one
  = Some (Throws (VariableAlreadyDeclared "x") Global.x_is_one) /\
  @Global.interpret_statement example_host 0
    (Global.Assignment "x" (Global.Identifier "missing")) Global.initial
  = Some (Throws (UnknownVariable "x") Global.initial) /\
  @Global.interpret_statement example_host 0
    (Global.VariableDeclaration "x" (Global.Identifier "missing")) Global.initial
  = Some (Throws (UnknownVariable "missing") Global.initial) /\
  @Global.interpret_statement example_host 0
    (Global.Assignment "x" (Global.Identifier "missing")) Global.x_is_one
  = Some (Throws (UnknownVariable "missing") Global.x_is_one) /\
  Global.memory Global.x_is_one = Global.memory Global.x_is_one.
Proof.
  assert (Hs : is_Some (Global.memory Global.x_is_one !! "x"))
    by (exists (Global.VNumber 1); reflexivity).
  pose proof (@declaration_and_assignment_atomic example_host 0 "x" Global.x_is_one)
    as [Hdecl [_ [Hmem Hthrow]]].
  pose proof (@declaration_and_assignment_atomic example_host 0 "x" Global.initial)
    as [_ [Hassign [_ Hthrow0]]].
  split; [exact Hs|]. split; [reflexivity|]. split; [reflexivity|].
  split; [exact (Hdecl Hs _)|].
  split; [exact (Hassign eq_refl _)|].
  split; [exact (proj1 (Hthrow0 (Global.Identifier "missing") _ _ eq_refl) eq_refl)|].
  split; [exact (proj2 (Hthrow (Global.Identifier "missing") _ Global.x_is_one eq_refl) Hs)|].
  exact (Hmem (Global.Identifier "missing") _ _
           (or_intror (proj2 (Hthrow (Global.Identifier "missing") _ Global.x_is_one eq_refl) Hs))).
Defined.

(** [subscript_checks_types_only] on [[1, 2, 3][5]], [true[5]],
    [[1, 2, 3][true]], [true[missing]] and [missing[true]]. *)
Lemma subscript_checks_types_only_witness :
  @Global.interpret example_host Global.one_two_three Global.initial
  = Returns (Global.VArray [Global.VNumber 1; Global.VNumber 2; Global.VNumber 3])
      Global.initial /\
  @Global.interpret example_host (Global.Numeral 5) Global.initial
  = Returns (Global.VNumber 5) Global.initial /\
  array_index 5 = Some 5%N /\
  @Global.interpret example_host
    (Global.Subscript Global.one_two_three (Global.Numeral 5)) Global.initial
  = Returns Global.VUndefined Global.initial /\
  @Global.interpret example_host
    (Global.Subscript (Global.Bool true) (Global.Numeral 5)) Global.initial
  = Throws SubscriptedItemMustBeAnArray Global.initial /\
  @Global.interpret example_host
    (Global.Subscript Global.one_two_three (Global.Bool true)) Global.initial
  = Throws SubscriptValueMustBeANumber Global.initial /\
  @Global.interpret example_host
    (Global.Subscript (Global.Bool true) (Global.Identifier "missing")) Global.initial
  = Throws (UnknownVariable "missing") Global.initial /\
  @Global.interpret example_host
    (Global.Subscript (Global.Identifier "missing") (Global.Bool true)) Global.initial
  = Throws (UnknownVariable "missing") Global.initial.
Proof.
  pose proof (proj1 (proj2 (@subscript_checks_types_only example_host
                Global.one_two_three (Global.Numeral 5) Global.initial))
                _ _ eq_refl) as [_ Harr].
  pose proof (proj1 (proj2 (@subscript_checks_types_only example_host
                (Global.Bool true) (Global.Numeral 5) Global.initial))
                _ _ eq_refl) as [_ Hnot].
  pose proof (proj1 (proj2 (@subscript_checks_types_only example_host
                Global.one_two_three (Global.Bool true) Global.initial))
                _ _ eq_refl) as [_ Hsub].
  pose proof (proj1 (proj2 (@subscript_checks_types_only example_host
                (Global.Bool true) (Global.Identifier "missing") Global.initial))
                _ _ eq_refl) as [Hthrow _].
  pose proof (proj1 (@subscript_checks_types_only example_host
                (Global.Identifier "missing") (Global.Bool true) Global.initial))
    as Hfirst.
  split; [reflexivity|]. split; [reflexivity|]. split; [reflexivity|].
  split; [|split; [|split; [|split]]].
  - destruct (proj2 (proj2 (Harr _ _ eq_refl) _ eq_refl) 5%float eq_refl)
      as [E [_ [Hout _]]].
    rewrite E, (Hout 5%N eq_refl); [reflexivity | compute; discriminate].
  - apply (proj1 (Hnot _ _ eq_refl)). discriminate.
  - exact (proj1 (proj1 (proj2 (Hsub _ _ eq_refl) _ eq_refl) eq_refl)).
  - exact (Hthrow _ _ eq_refl).
  - exact (Hfirst _ _ eq_refl).
Defined.

(** [conditional_evaluates_one_branch] on [3 < 2 ? 1 : 0], on
    [true ? 1 : missing] and on [missing ? 1 : 0], in the empty state. *)
Lemma conditional_evaluates_one_branch_witness :
  Global.memory Global.initial !! "missing" = None /\
  @Global.interpret example_host
    (Global.ConditionalExpression
       (Global.BinaryExp "<" (Global.Numeral 3) (Global.Numeral 2))
       (Global.Numeral 1) (Global.Numeral 0)) Global.initial
  = Returns (Global.VNumber 0) Global.initial /\
  @Global.interpret example_host
    (Global.ConditionalExpression (Global.Bool true)
       (Global.Numeral 1) (Global.Identifier "missing")) Global.initial
  = Returns (Global.VNumber 1) Global.initial /\
  @Global.interpret example_host
    (Global.ConditionalExpression (Global.Identifier "missing")
       (Global.Numeral 1) (Global.Numeral 0)) Global.initial
  = Throws (UnknownVariable "missing") Global.initial /\
  @Threaded.interpret example_host
    (Threaded.ConditionalExpression (Threaded.Bool true)
       (Threaded.Numeral 1) (Threaded.Identifier "missing")) Threaded.initial
  = Returns (Threaded.Number 1) Threaded.initial /\
  @Threaded.interpret example_host
    (Threaded.ConditionalExpression (Threaded.Identifier "missing")
       (Threaded.Numeral 1) (Threaded.Numeral 0)) Threaded.initial
  = Throws (UnknownVariable "missing")
      (Threaded.console_log (Threaded.LogTypeof "undefined") Threaded.initial).
Proof.
  pose proof (proj1 (proj2 (proj2 (@conditional_evaluates_one_branch example_host)))
                Global.initial "missing" 1%float 0%float) as (H32 & Htrue & _ & Htest).
  pose proof (proj2 (proj2 (proj2 (@conditional_evaluates_one_branch example_host)))
                Threaded.initial "missing" 1%float 0%float) as (_ & Ttrue & _ & Ttest).
  split; [reflexivity|]. split; [exact H32|]. split; [exact Htrue|].
  split; [exact (Htest eq_refl _ _)|]. split; [exact Ttrue|].
  exact (Ttest eq_refl _ _).
Defined.

(** [while_tests_truthiness] on the loop of [count_to_ten], entered with [y]
    bound to 10 and with [y] bound to 1. *)
Lemma while_tests_truthiness_witness :
  (exists s_end,
     @Global.interpret_program example_host 10 Global.count_to_ten Global.initial
     = Some (Returns tt s_end) /\
     Global.console s_end = [Global.VNumber 10] /\
     Global.memory s_end !! "y" = Some (Global.VNumber 10)) /\
  @Global.interpret_statement example_host 0
    (Global.While (Global.Identifier "missing") []) Global.initial
  = Some (Throws (UnknownVariable "missing") Global.initial) /\
  @Global.interpret_statement example_host 0
    (Global.While (Global.UnaryExp "-" (Global.UnaryExp "-" (Global.Numeral 0))) [])
    Global.x_is_one
  = Some (Returns tt Global.x_is_one) /\
  @Global.interpret_statement example_host 1
    (Global.While (Global.Identifier "x")
       [Global.Assignment "x" (Global.Numeral 0)]) Global.x_is_one
  = @Global.interpret_statement example_host 0
    (Global.While (Global.Identifier "x")
       [Global.Assignment "x" (Global.Numeral 0)])
    (Global.memory_set "x" (Global.VNumber 0) Global.x_is_one).
Proof.
  split; [|split; [|split]].
  - exact (proj2 (proj2 (proj2 (proj2 (@while_tests_truthiness example_host
             (Global.Numeral 0) [] Global.initial)))) 10 (le_n 10)).
  - exact (proj1 (@while_tests_truthiness example_host
             (Global.Identifier "missing") [] Global.initial) _ _ eq_refl 0).
  - exact (proj1 (proj2 (@while_tests_truthiness example_host
             (Global.UnaryExp "-" (Global.UnaryExp "-" (Global.Numeral 0))) []
             Global.x_is_one)) _ _ eq_refl eq_refl 0).
  - exact (proj1 (proj2 (proj2 (@while_tests_truthiness example_host
             (Global.Identifier "x") [Global.Assignment "x" (Global.Numeral 0)]
             Global.x_is_one))) _ _ eq_refl eq_refl 0).
Defined.

(** * Further properties of the complete draft *)

Section GlobalExpressions.
Context `{Host}.
Import Global.

Lemma map_M_interpret_all (l : list Expression) (s : State) (vs : list Value) :
  Forall2 (fun e v => interpret e s = Returns v s) l vs ->
  map_M interpret l s = Returns vs s.
Proof.
  induction 1 as [|e v l vs He _ IH]; simpl; [reflexivity|].
  rewrite (bind_returns _ _ _ _ _ He). now rewrite (bind_returns _ _ _ _ _ IH).
Qed.

Lemma map_M_interpret_returns (l : list Expression) (s : State) :
  forall vs s',
    map_M interpret l s = Returns vs s' <->
    s' = s /\ Forall2 (fun e v => interpret e s = Returns v s) l vs.
Proof.
  intros vs s'. split.
  - revert vs s'. induction l as [|e l IH]; intros vs s'; simpl.
    + intros [= <- <-]. split; [reflexivity | constructor].
    + unfold bind at 1. destruct (interpret e s) as [v s1|x s1] eqn:Ee; [|discriminate].
      pose proof (interpret_returns_same _ _ _ _ Ee) as ->.
      unfold bind at 1. destruct (map_M interpret l s) as [vs1 s2|x s2] eqn:El;
        [|discriminate].
      destruct (IH _ _ eq_refl) as [-> Hall].
      intros [= <- <-]. split; [reflexivity|]. now constructor.
  - intros [-> Hall]. now apply map_M_interpret_all.
Qed.

Lemma map_M_interpret_throws (before after : list Expression) (e : Expression)
    (s : State) (x : Error) :
  Forall (fun e => exists v, interpret e s = Returns v s) before ->
  interpret e s = Throws x s ->
  map_M interpret (before ++ e :: after) s = Throws x s.
Proof.
  intros Hb He. induction Hb as [|e0 before [v Hv] _ IH]; simpl.
  - now rewrite (bind_throws _ _ _ _ _ He).
  - rewrite (bind_returns _ _ _ _ _ Hv). now rewrite (bind_throws _ _ _ _ _ IH).
Qed.

(** X1: evaluating an expression of the complete draft has no effect: it
    returns or throws in the state it started from, with [memory] and the
    console untouched. *)
Theorem expression_evaluation_is_pure (e : Expression) (s : State) :
  (exists v, interpret e s = Returns v s) \/ (exists x, interpret e s = Throws x s).
Proof.
  pose proof (interpret_pure e s) as P.
  destruct (interpret e s) as [v s'|x s']; simpl in P; subst s'; eauto.
Qed.

(** X2: an expression never returns a native function or a declared
    function: what it returns is a number, a boolean, [undefined] or an array
    built from these. *)
Theorem expressions_never_return_functions (e : Expression) (s s' : State) (v : Value) :
  interpret e s = Returns v s' ->
  is_data v = true /\
  (forall f, v <> VNative f) /\
  (forall params body, v <> VClosure params body).
Proof.
  intros E. apply interpret_returns_data in E.
  split; [exact E|]. split; intros; intros ->; discriminate.
Qed.

(** X3: an [ArrayLiteral] returns exactly when each of its elements returns,
    and then it returns the array of their values, in order and of the same
    length; when an element throws after the elements before it have
    returned, the literal throws that error. *)
Theorem array_literal_elementwise (elements : list Expression) (s : State) :
  (forall v s',
     interpret (ArrayLiteral elements) s = Returns v s' <->
     exists vs, v = VArray vs /\ s' = s /\ length vs = length elements /\
                Forall2 (fun e v => interpret e s = Returns v s) elements vs) /\
  (forall before e after x,
     elements = before ++ e :: after ->
     Forall (fun e => exists v, interpret e s = Returns v s) before ->
     interpret e s = Throws x s ->
     interpret (ArrayLiteral elements) s = Throws x s).
Proof.
  split.
  - intros v s'.
    change (interpret (ArrayLiteral elements) s)
      with (bind (map_M interpret elements) (fun vs => ret (VArray vs)) s).
    split.
    + unfold bind.
      destruct (map_M interpret elements s) as [vs s1|x s1] eqn:E; [|discriminate].
      apply map_M_interpret_returns in E as [-> Hall].
      intros [= <- <-]. exists vs. repeat split; [|exact Hall].
      symmetry. exact (Forall2_length _ _ _ Hall).
    + intros (vs & -> & -> & _ & Hall).
      now rewrite (bind_returns _ _ _ _ _ (map_M_interpret_all _ _ _ Hall)).
  - intros before e after x -> Hb He.
    change (interpret (ArrayLiteral (before ++ e :: after)) s)
      with (bind (map_M interpret (before ++ e :: after))
              (fun vs => ret (VArray vs)) s).
    now rewrite (bind_throws _ _ _ _ _ (map_M_interpret_throws _ _ _ _ _ Hb He)).
Qed.

End GlobalExpressions.

(** ** Numbers as the host sees them *)

(** Negating twice gives the number back. *)
Lemma opp_involutive (x : float) : (- - x)%float = x.
Proof.
  rewrite <- (SF2Prim_Prim2SF (- - x)%float), !FloatAxioms.opp_spec.
  rewrite <- (SF2Prim_Prim2SF x) at 2. f_equal.
  destruct (Prim2SF x) as [[]|[]| |[] m e]; reflexivity.
Qed.

(** A number that is not at least 0 (a negative number, NaN) names no array
    element. *)
Lemma array_index_not_nonnegative (n : float) :
  PrimFloat.leb 0%float n = false -> array_index n = None.
Proof.
  rewrite FloatAxioms.leb_spec. change (Prim2SF 0%float) with (S754_zero false).
  unfold array_index.
  destruct (Prim2SF n) as [[]|[]| |[] m e]; simpl; try discriminate; reflexivity.
Qed.

(** A number equal to 0 ([0] or [-0]) names element 0. *)
Lemma array_index_zero (n : float) :
  PrimFloat.eqb n 0%float = true -> array_index n = Some 0%N.
Proof.
  rewrite FloatAxioms.eqb_spec. change (Prim2SF 0%float) with (S754_zero false).
  unfold array_index.
  destruct (Prim2SF n) as [[]|[]| |[] m e]; simpl; try discriminate; reflexivity.
Qed.

Section GlobalOperators.
Context `{Host}.
Import Global.

Lemma not_in_eqb (operator : string) (known : list string) (op : string) :
  ~ In operator known -> In op known -> String.eqb operator op = false.
Proof.
  intros Hn Hi. destruct (String.eqb_spec operator op) as [->|]; [|reflexivity].
  now destruct Hn.
Qed.

(** X4: [UnaryExp.interpret] checks no type.  Once the operand has returned
    [v], [-] returns the negated number that [v] converts to and [!] returns
    the negation of the truthiness of [v]; applying [!] twice gives the
    truthiness as a boolean and applying [-] twice to a number gives the
    number back.  An error of the operand propagates.  An operator other than
    [-] and [!] throws the unknown-operator error without evaluating the
    operand. *)
Theorem unary_operators_check_no_type (operand : Expression) (s : State) :
  (forall v s', interpret operand s = Returns v s' ->
     interpret (UnaryExp "-" operand) s = Returns (VNumber (- ToNumber v)%float) s' /\
     interpret (UnaryExp "!" operand) s = Returns (VBoolean (negb (truthy v))) s' /\
     interpret (UnaryExp "!" (UnaryExp "!" operand)) s = Returns (VBoolean (truthy v)) s' /\
     (forall n, v = VNumber n ->
        interpret (UnaryExp "-" (UnaryExp "-" operand)) s = Returns (VNumber n) s')) /\
  (forall x s', interpret operand s = Throws x s' ->
     interpret (UnaryExp "-" operand) s = Throws x s' /\
     interpret (UnaryExp "!" operand) s = Throws x s') /\
  (forall operator, ~ In operator unary_operators ->
     interpret (UnaryExp operator operand) s = Throws (UnknownOperator operator) s).
Proof.
  assert (Eminus : forall e, interpret (UnaryExp "-" e) =
            bind (interpret e) (fun v => ret (VNumber (- ToNumber v)%float)))
    by reflexivity.
  assert (Enot : forall e, interpret (UnaryExp "!" e) =
            bind (interpret e) (fun v => ret (VBoolean (negb (truthy v)))))
    by reflexivity.
  split; [|split].
  - intros v s' Hv.
    assert (E1 : interpret (UnaryExp "-" operand) s
                 = Returns (VNumber (- ToNumber v)%float) s')
      by (rewrite Eminus; now rewrite (bind_returns _ _ _ _ _ Hv)).
    assert (E2 : interpret (UnaryExp "!" operand) s
                 = Returns (VBoolean (negb (truthy v))) s')
      by (rewrite Enot; now rewrite (bind_returns _ _ _ _ _ Hv)).
    split; [exact E1|]. split; [exact E2|]. split.
    + rewrite Enot. rewrite (bind_returns _ _ _ _ _ E2). unfold ret. simpl.
      now rewrite negb_involutive.
    + intros n ->. rewrite Eminus. rewrite (bind_returns _ _ _ _ _ E1).
      unfold ret. simpl. now rewrite opp_involutive.
  - intros x s' Hx. rewrite Eminus, Enot.
    now rewrite !(bind_throws _ _ _ _ _ Hx).
  - intros operator Hn. simpl.
    rewrite (not_in_eqb operator unary_operators "-" Hn) by (simpl; tauto).
    rewrite (not_in_eqb operator unary_operators "!" Hn) by (simpl; tauto).
    reflexivity.
Qed.

(** X5: on two operands that have returned numbers [a] and [b], the six
    comparison operators return the boolean of the IEEE-754 comparison, and
    [&&] and [||] return one of the two numbers, chosen by the truthiness of
    [a]; an operator string outside the fourteen known ones throws the
    unknown-operator error, after both operands have been evaluated. *)
Theorem binary_comparisons_and_logic (l r : Expression) (s s1 s2 : State)
    (a b : float) :
  interpret l s = Returns (VNumber a) s1 ->
  interpret r s1 = Returns (VNumber b) s2 ->
  interpret (BinaryExp "<" l r) s = Returns (VBoolean (PrimFloat.ltb a b)) s2 /\
  interpret (BinaryExp "<=" l r) s = Returns (VBoolean (PrimFloat.leb a b)) s2 /\
  interpret (BinaryExp "==" l r) s = Returns (VBoolean (PrimFloat.eqb a b)) s2 /\
  interpret (BinaryExp "!=" l r) s = Returns (VBoolean (negb (PrimFloat.eqb a b))) s2 /\
  interpret (BinaryExp ">=" l r) s = Returns (VBoolean (PrimFloat.leb b a)) s2 /\
  interpret (BinaryExp ">" l r) s = Returns (VBoolean (PrimFloat.ltb b a)) s2 /\
  interpret (BinaryExp "&&" l r) s
    = Returns (VNumber (if number_truthy a then b else a)) s2 /\
  interpret (BinaryExp "||" l r) s
    = Returns (VNumber (if number_truthy a then a else b)) s2 /\
  (forall operator, ~ In operator binary_operators ->
     interpret (BinaryExp operator l r) s = Throws (UnknownOperator operator) s2).
Proof.
  intros Hl Hr.
  assert (E : forall operator,
             interpret (BinaryExp operator l r) s = binary_numbers operator a b s2).
  { intros operator. simpl.
    now rewrite (bind_returns _ _ _ _ _ Hl), (bind_returns _ _ _ _ _ Hr). }
  rewrite !E. repeat split.
  intros operator Hn. rewrite E. unfold binary_numbers.
  repeat (rewrite (not_in_eqb operator binary_operators _ Hn) by (simpl; tauto)).
  reflexivity.
Qed.

(** X6: [Call.interpret] looks the callee up before anything else: unless
    [memory] holds a native function under that name, it throws the
    not-a-function error without evaluating an argument.  For a native
    function it evaluates the arguments in order and hands the native the
    array of their values as its only argument: an error of an argument
    propagates; the native then works on the number the array converts to, so
    with no argument it computes on 0, with one argument that is a non-zero
    number on that number, and with two or more arguments on NaN. *)
Theorem native_call_receives_the_argument_array (callee : string)
    (args : list Expression) (s : State) :
  ((forall f, memory s !! callee <> Some (VNative f)) ->
     interpret (Call callee args) s = Throws (ValueIsNotAFunction callee) s) /\
  (forall f, memory s !! callee = Some (VNative f) ->
     (forall vs,
        Forall2 (fun e v => interpret e s = Returns v s) args vs ->
        interpret (Call callee args) s = Returns (apply_native f (VArray vs)) s /\
        (vs = [] -> apply_native f (VArray vs) = apply_native f (VNumber 0)) /\
        (forall n, vs = [VNumber n] -> PrimFloat.eqb n 0%float = false ->
           apply_native f (VArray vs) = apply_native f (VNumber n)) /\
        (2 <= length vs -> apply_native f (VArray vs) = apply_native f (VNumber nan))) /\
     (forall before e after x,
        args = before ++ e :: after ->
        Forall (fun e => exists v, interpret e s = Returns v s) before ->
        interpret e s = Throws x s ->
        interpret (Call callee args) s = Throws x s)).
Proof.
  split.
  - intros Hn. simpl. unfold memory_get.
    destruct (memory s !! callee) as [[]|]; try reflexivity. now destruct (Hn f).
  - intros f Hf.
    assert (E : interpret (Call callee args) s =
                bind (map_M interpret args)
                  (fun argv => ret (apply_native f (VArray argv))) s).
    { simpl. unfold memory_get. now rewrite Hf. }
    split.
    + intros vs Hall. split.
      * rewrite E. now rewrite (bind_returns _ _ _ _ _ (map_M_interpret_all _ _ _ Hall)).
      * split; [|split].
        -- intros ->. now destruct f.
        -- intros n -> Hz. destruct f; simpl; now rewrite Hz.
        -- intros Hlen. destruct vs as [|v1 [|v2 vs]]; simpl in Hlen; try lia.
           now destruct f.
    + intros before e after x -> Hb He. rewrite E.
      now rewrite (bind_throws _ _ _ _ _ (map_M_interpret_throws _ _ _ _ _ Hb He)).
Qed.

(** X7: a subscript that is not at least 0 (a negative number, NaN), an
    infinite subscript, and every subscript of an empty array return
    [undefined]; a subscript equal to 0 (also [-0]) returns the first element,
    or [undefined] when there is none. *)
Theorem subscript_edge_indices (array subscript : Expression) (s s1 s2 : State)
    (elements : list Value) (n : float) :
  interpret array s = Returns (VArray elements) s1 ->
  interpret subscript s1 = Returns (VNumber n) s2 ->
  (PrimFloat.leb 0%float n = false \/ n = infinity \/ elements = [] ->
     interpret (Subscript array subscript) s = Returns VUndefined s2) /\
  (PrimFloat.eqb n 0%float = true ->
     interpret (Subscript array subscript) s
     = Returns (default VUndefined (head elements)) s2).
Proof.
  intros Ha Hs.
  assert (E : interpret (Subscript array subscript) s
              = Returns (array_get elements n) s2).
  { simpl. now rewrite (bind_returns _ _ _ _ _ Ha), (bind_returns _ _ _ _ _ Hs). }
  rewrite E. unfold array_get. split.
  - intros [Hneg|[->| ->]].
    + now rewrite (array_index_not_nonnegative _ Hneg).
    + reflexivity.
    + destruct (array_index n) as [i|]; [|reflexivity].
      simpl. now destruct i.
  - intros Hz. rewrite (array_index_zero _ Hz). now destruct elements.
Qed.

End GlobalOperators.

(** ** Statements of the complete draft *)

Section GlobalBlocks.
Context `{Host}.
Import Global.

Lemma move_console_bind {A B} (m : M State A) (k : A -> M State B) c s :
  m (put_console c s) = move_console c (m s) ->
  (forall a s, k a (put_console c s) = move_console c (k a s)) ->
  bind m k (put_console c s) = move_console c (bind m k s).
Proof.
  intros Hm Hk. unfold bind. rewrite Hm.
  destruct (m s) as [a s'|x s']; simpl; [apply Hk | reflexivity].
Qed.

Lemma move_console_map_M {A B} (f : A -> M State B) (l : list A) c :
  list_all A (fun a => forall s, f a (put_console c s) = move_console c (f a s)) l ->
  forall s, map_M f l (put_console c s) = move_console c (map_M f l s).
Proof.
  induction 1 as [|a Ha l _ IH]; intros s; simpl; [reflexivity|].
  apply move_console_bind; [apply Ha|]. intros b s0.
  apply move_console_bind; [apply IH|]. reflexivity.
Qed.

Lemma binary_numbers_console operator a b c s :
  binary_numbers operator a b (put_console c s)
  = move_console c (binary_numbers operator a b s).
Proof.
  unfold binary_numbers.
  repeat (match goal with |- context [String.eqb ?x ?y] => destruct (String.eqb x y) end;
          [reflexivity|]).
  reflexivity.
Qed.

(** What is on the console has no influence on an expression. *)
Lemma interpret_console (e : Expression) (c : list Value) :
  forall s, interpret e (put_console c s) = move_console c (interpret e s).
Proof.
  induction e as [op l IHl r IHr | op e IHe | t IHt co IHc a IHa | callee args IH
                 | els IH | arr IHarr sub IHsub | name | value | value];
    intros s; simpl.
  - apply move_console_bind; [apply IHl|]. intros lv s0.
    apply move_console_bind; [apply IHr|]. intros rv s1.
    destruct lv, rv; try reflexivity. apply binary_numbers_console.
  - destruct (String.eqb op "-").
    { apply move_console_bind; [apply IHe | reflexivity]. }
    destruct (String.eqb op "!"); [|reflexivity].
    apply move_console_bind; [apply IHe | reflexivity].
  - apply move_console_bind; [apply IHt|]. intros v s0. destruct (truthy v); auto.
  - change (memory_get callee (put_console c s)) with (memory_get callee s).
    destruct (memory_get callee s); try reflexivity.
    apply move_console_bind; [now apply move_console_map_M | reflexivity].
  - apply move_console_bind; [now apply move_console_map_M | reflexivity].
  - apply move_console_bind; [apply IHarr|]. intros av s0.
    apply move_console_bind; [apply IHsub|]. intros iv s1.
    destruct av; try reflexivity. destruct iv; reflexivity.
  - change (memory_get name (put_console c s)) with (memory_get name s).
    destruct (memory_get name s); reflexivity.
  - reflexivity.
  - reflexivity.
Qed.

Lemma interpret_statement_PrintStatement fuel e s :
  interpret_statement fuel (PrintStatement e) s =
  match interpret e s with
  | Returns v s' => Some (Returns tt (console_log v s'))
  | Throws x s' => Some (Throws x s')
  end.
Proof. destruct fuel; reflexivity. Qed.

Lemma interpret_statement_FunctionStatement fuel id args e s :
  interpret_statement fuel (FunctionStatement id args e) s
  = Some (Returns tt (memory_set id (VClosure args e) s)).
Proof. destruct fuel; reflexivity. Qed.

Lemma interpret_statement_ExpressionStatement fuel e s :
  interpret_statement fuel (ExpressionStatement e) s =
  match interpret e s with
  | Returns _ s' => Some (Returns tt s')
  | Throws x s' => Some (Throws x s')
  end.
Proof. destruct fuel; reflexivity. Qed.

(** X8: the value of an expression depends on [memory] alone: evaluated
    with anything else on the console, it returns the same value or throws
    the same error. *)
Theorem expressions_ignore_the_console (e : Expression) (s : State) (c : list Value) :
  (forall v, interpret e s = Returns v s ->
     interpret e (put_console c s) = Returns v (put_console c s)) /\
  (forall x, interpret e s = Throws x s ->
     interpret e (put_console c s) = Throws x (put_console c s)).
Proof.
  split; intros ? E; rewrite interpret_console, E; reflexivity.
Qed.

Lemma interpret_block_app (f : Statement -> State -> Run State)
    (first second : list Statement) (s : State) :
  interpret_block f (first ++ second) s =
  match interpret_block f first s with
  | Some (Returns _ s') => interpret_block f second s'
  | other => other
  end.
Proof.
  revert s. induction first as [|st first IH]; intros s; simpl; [reflexivity|].
  destruct (f st s) as [[[] s'|x s']|]; auto.
Qed.


(** X10: a block of [PrintStatement]s whose expressions return the values
    [vs] in the starting state returns, with exactly [vs] added to the console
    in order and [memory] as it was; if an expression throws after the ones
    before it have returned, the block throws that error with the values
    before it printed. *)
Theorem prints_in_order (fuel : nat) (es : list Expression) (s : State) :
  (forall vs,
     Forall2 (fun e v => interpret e s = Returns v s) es vs ->
     interpret_block (interpret_statement fuel) (PrintStatement <$> es) s
     = Some (Returns tt (put_console (console s ++ vs) s))) /\
  (forall before vs e after x,
     es = before ++ e :: after ->
     Forall2 (fun e v => interpret e s = Returns v s) before vs ->
     interpret e s = Throws x s ->
     interpret_block (interpret_statement fuel) (PrintStatement <$> es) s
     = Some (Throws x (put_console (console s ++ vs) s))).
Proof.
  assert (G : forall l vs,
             Forall2 (fun e v => interpret e s = Returns v s) l vs ->
             forall c,
               interpret_block (interpret_statement fuel) (PrintStatement <$> l)
                 (put_console c s)
               = Some (Returns tt (put_console (c ++ vs) s))).
  { induction 1 as [|e v l vs He _ IH]; intros c; simpl.
    - now rewrite app_nil_r.
    - rewrite interpret_statement_PrintStatement, interpret_console, He. simpl.
      change (console_log v (put_console c s)) with (put_console (c ++ [v]) s).
      rewrite IH. now rewrite <- app_assoc. }
  assert (S0 : put_console (console s) s = s) by now destruct s.
  split.
  - intros vs Hall. rewrite <- S0 at 1. now apply G.
  - intros before vs e after x -> Hall He.
    rewrite fmap_app, interpret_block_app.
    rewrite <- S0 at 1. rewrite (G _ _ Hall). simpl.
    now rewrite interpret_statement_PrintStatement, interpret_console, He.
Qed.

End GlobalBlocks.

Section GlobalInvariants.
Context `{Host}.
Import Global.

Lemma keeps_all_refl s : keeps_all s s.
Proof. split; [reflexivity | auto]. Qed.

Lemma keeps_all_trans s1 s2 s3 : keeps_all s1 s2 -> keeps_all s2 s3 -> keeps_all s1 s3.
Proof. intros [P1 D1] [P2 D2]. split; [now transitivity (console s2) | auto]. Qed.

Lemma keeps_all_memory_set k v s : keeps_all s (memory_set k v s).
Proof.
  split; [reflexivity|]. intros j Hj. simpl.
  destruct (decide (k = j)) as [->|Hne].
  - rewrite lookup_insert_eq. eauto.
  - now rewrite lookup_insert_ne.
Qed.

Lemma keeps_all_console_log v s : keeps_all s (console_log v s).
Proof. split; [now apply prefix_app_r | auto]. Qed.

Lemma keeps_all_block (f : Statement -> State -> Run State) l :
  list_all Statement
    (fun st => forall s o, f st s = Some o -> keeps_all s (final o)) l ->
  forall s o, interpret_block f l s = Some o -> keeps_all s (final o).
Proof.
  induction 1 as [|st Hst l _ IH]; intros s o; simpl.
  - intros [= <-]. apply keeps_all_refl.
  - destruct (f st s) as [[[] s'|x s']|] eqn:E; [| |discriminate].
    + intros Ho. eapply keeps_all_trans; [exact (Hst _ _ E) | exact (IH _ _ Ho)].
    + intros [= <-]. exact (Hst _ _ E).
Qed.

Lemma keeps_all_statement fuel :
  forall st s o, interpret_statement fuel st s = Some o -> keeps_all s (final o).
Proof.
  assert (Simple : forall n st, (forall c b, st <> While c b) ->
            forall s o, interpret_statement n st s = Some o -> keeps_all s (final o)).
  { intros n [id e | target e | e | c b | id args e | e] Hw s o;
      rewrite ?interpret_statement_VariableDeclaration, ?interpret_statement_Assignment,
        ?interpret_statement_PrintStatement, ?interpret_statement_FunctionStatement,
        ?interpret_statement_ExpressionStatement.
    - destruct (memory_has id s); [intros [= <-]; apply keeps_all_refl|].
      destruct (interpret e s) as [v s'|x s'] eqn:E;
        [apply interpret_returns_same in E | apply interpret_throws_same in E];
        subst s'; intros [= <-]; [apply keeps_all_memory_set | apply keeps_all_refl].
    - destruct (negb (memory_has target s)); [intros [= <-]; apply keeps_all_refl|].
      destruct (interpret e s) as [v s'|x s'] eqn:E;
        [apply interpret_returns_same in E | apply interpret_throws_same in E];
        subst s'; intros [= <-]; [apply keeps_all_memory_set | apply keeps_all_refl].
    - destruct (interpret e s) as [v s'|x s'] eqn:E;
        [apply interpret_returns_same in E | apply interpret_throws_same in E];
        subst s'; intros [= <-]; [apply keeps_all_console_log | apply keeps_all_refl].
    - now destruct (Hw c b).
    - intros [= <-]. apply keeps_all_memory_set.
    - destruct (interpret e s) as [v s'|x s'] eqn:E;
        [apply interpret_returns_same in E | apply interpret_throws_same in E];
        subst s'; intros [= <-]; apply keeps_all_refl. }
  induction fuel as [|fuel IHfuel]; intros st;
    induction st as [id e | target e | e | c b IHb | id args e | e];
    try (apply Simple; discriminate); intros s o;
    rewrite interpret_statement_While;
    (destruct (interpret c s) as [v s'|x s'] eqn:E;
     [apply interpret_returns_same in E | apply interpret_throws_same in E];
     subst s'; [|intros [= <-]; apply keeps_all_refl]).
  - destruct (truthy v); [discriminate|]. intros [= <-]. apply keeps_all_refl.
  - destruct (truthy v); [|intros [= <-]; apply keeps_all_refl].
    destruct (interpret_block (interpret_statement (S fuel)) b s) as [[[] s'|x s']|] eqn:E;
      [| |discriminate].
    + intros Ho. eapply keeps_all_trans;
        [exact (keeps_all_block _ _ IHb _ _ E) | exact (IHfuel _ _ _ Ho)].
    + intros [= <-]. exact (keeps_all_block _ _ IHb _ _ E).
Qed.

(** X11: no statement takes anything back.  Whenever a statement ends, by
    returning or by throwing, the console still starts with every line it held
    before and [memory] still holds every name it held before; the same is
    true of a whole block. *)
Theorem statements_keep_output_and_names (fuel : nat) (s : State) :
  (forall st o, interpret_statement fuel st s = Some o -> keeps_all s (final o)) /\
  (forall block o,
     interpret_block (interpret_statement fuel) block s = Some o ->
     keeps_all s (final o)).
Proof.
  split.
  - intros st o. apply keeps_all_statement.
  - intros block o. apply keeps_all_block.
    induction block; constructor; auto. intros s0 o0. apply keeps_all_statement.
Qed.

(** X12: a loop whose guard is truthy and whose block returns to the state
    it started from does not end: no bound on the number of iterations is
    enough for it to return or throw. *)
Theorem idle_loop_never_ends (c : Expression) (b : list Statement) (s : State)
    (v : Value) :
  interpret c s = Returns v s ->
  truthy v = true ->
  (forall fuel, interpret_block (interpret_statement fuel) b s = Some (Returns tt s)) ->
  forall fuel, interpret_statement fuel (While c b) s = None.
Proof.
  intros Hc Hv Hb fuel. induction fuel as [|fuel IH];
    rewrite interpret_statement_While, Hc, Hv; [reflexivity|].
  now rewrite Hb.
Qed.

Lemma set_builtins_lookup (s : State) (k : string) :
  memory (set_builtins s) !! k =
  if decide (k = "ln") then Some (VNumber Math_LN10)
  else if decide (k = "exp") then Some (VNative NativeExp)
  else if decide (k = "π") then Some (VNumber Math_PI)
  else if decide (k = "sqrt") then Some (VNative NativeSqrt)
  else if decide (k = "hypot") then Some (VNative NativeHypot)
  else if decide (k = "cos") then Some (VNative NativeCos)
  else if decide (k = "sin") then Some (VNative NativeSin)
  else memory s !! k.
Proof.
  unfold set_builtins. simpl.
  repeat (rewrite lookup_insert;
          match goal with
          | |- context [decide (?b = k)] =>
              destruct (decide (b = k)) as [<-|?];
              [reflexivity | destruct (decide (k = b)) as [->|_]; [congruence|]]
          end).
  reflexivity.
Qed.

(** X13: what [Program.interpret] sets up.  It leaves the console and every
    name other than the seven built-in ones as they were (the map is shared by
    all runs), and setting up twice is the same as once.  The seven names are
    then taken: declaring a variable of one of these names throws the
    already-declared error, also as the first statement of a program.  As
    variables, [π] and [ln] read as numbers and the five functions cannot be
    read. *)
Theorem builtins_set_on_every_run (s : State) :
  (forall k, ~ In k builtin_names -> memory (set_builtins s) !! k = memory s !! k) /\
  console (set_builtins s) = console s /\
  set_builtins (set_builtins s) = set_builtins s /\
  (forall k, In k builtin_names ->
     forall fuel e rest,
       interpret_statement fuel (VariableDeclaration k e) (set_builtins s)
       = Some (Throws (VariableAlreadyDeclared k) (set_builtins s)) /\
       interpret_program fuel (VariableDeclaration k e :: rest) s
       = Some (Throws (VariableAlreadyDeclared k) (set_builtins s))) /\
  interpret (Identifier "π") (set_builtins s) = Returns (VNumber Math_PI) (set_builtins s) /\
  interpret (Identifier "ln") (set_builtins s) = Returns (VNumber Math_LN10) (set_builtins s) /\
  (forall k, In k ["sin"; "cos"; "hypot"; "sqrt"; "exp"] ->
     interpret (Identifier k) (set_builtins s)
     = Throws (VariableIsNotANumber k) (set_builtins s)).
Proof.
  split; [|split; [|split; [|split; [|split; [|split]]]]].
  - intros k Hk. rewrite set_builtins_lookup.
    repeat (case_decide; [subst k; destruct Hk; simpl; tauto|]). reflexivity.
  - reflexivity.
  - assert (E : memory (set_builtins (set_builtins s)) = memory (set_builtins s)).
    { apply map_eq. intros k. rewrite (set_builtins_lookup (set_builtins s)).
      rewrite (set_builtins_lookup s). repeat case_decide; reflexivity. }
    change (set_builtins (set_builtins s))
      with {| memory := memory (set_builtins (set_builtins s));
              console := console (set_builtins s) |}.
    rewrite E. reflexivity.
  - intros k Hk fuel e rest.
    assert (D : interpret_statement fuel (VariableDeclaration k e) (set_builtins s)
                = Some (Throws (VariableAlreadyDeclared k) (set_builtins s))).
    { rewrite interpret_statement_VariableDeclaration. unfold memory_has.
      rewrite bool_decide_eq_true_2; [reflexivity|].
      rewrite set_builtins_lookup.
      simpl in Hk. destruct Hk as [<-|[<-|[<-|[<-|[<-|[<-|[<-|[]]]]]]]]; simpl; eauto. }
    split; [exact D|]. unfold interpret_program. simpl. now rewrite D.
  - simpl. unfold memory_get. now rewrite set_builtins_lookup.
  - simpl. unfold memory_get. now rewrite set_builtins_lookup.
  - intros k Hk. simpl. unfold memory_get. rewrite set_builtins_lookup.
    simpl in Hk. destruct Hk as [<-|[<-|[<-|[<-|[<-|[]]]]]]; reflexivity.
Qed.

(** X14: a variable read back.  After a [VariableDeclaration] of a free name,
    or an [Assignment] to a bound one, whose expression returned [v], every
    other name is bound as before, declaring the name again throws the
    already-declared error, and reading the name returns [v] when [v] is a
    number; when [v] is a boolean or an array the read throws the
    variable-is-not-a-number error, and when [v] is [undefined] it throws the
    unknown-variable error although the name is bound. *)
Theorem variable_read_back (fuel : nat) (id : string) (e : Expression)
    (s : State) (v : Value) :
  interpret e s = Returns v s ->
  forall statement,
    (statement = VariableDeclaration id e /\ memory s !! id = None) \/
    (statement = Assignment id e /\ is_Some (memory s !! id)) ->
    exists s',
      interpret_statement fuel statement s = Some (Returns tt s') /\
      (forall other, other <> id -> memory s' !! other = memory s !! other) /\
      (forall e', interpret_statement fuel (VariableDeclaration id e') s'
                  = Some (Throws (VariableAlreadyDeclared id) s')) /\
      interpret (Identifier id) s' =
      match v with
      | VNumber n => Returns (VNumber n) s'
      | VUndefined => Throws (UnknownVariable id) s'
      | _ => Throws (VariableIsNotANumber id) s'
      end.
Proof.
  intros He statement Hst. exists (memory_set id v s).
  assert (L : memory (memory_set id v s) !! id = Some v) by apply lookup_insert_eq.
  split.
  - destruct Hst as [[-> Hn]|[-> Hs]].
    + rewrite interpret_statement_VariableDeclaration. unfold memory_has.
      rewrite bool_decide_eq_false_2 by (rewrite Hn; apply is_Some_None).
      now rewrite He.
    + rewrite interpret_statement_Assignment. unfold memory_has.
      rewrite bool_decide_eq_true_2 by assumption. simpl. now rewrite He.
  - split; [|split].
    + intros other Hne. simpl. now rewrite lookup_insert_ne.
    + intros e'. rewrite interpret_statement_VariableDeclaration. unfold memory_has.
      rewrite bool_decide_eq_true_2; [reflexivity|]. rewrite L. eauto.
    + simpl. unfold memory_get. rewrite L. now destruct v.
Qed.

(** X15: a [FunctionStatement] checks nothing: it returns in every state,
    and a name that was bound, to a variable, a built-in or another function,
    is bound to the new parameters and body afterwards, every other name and
    the console being as before.  The name then counts as declared, cannot be
    read as a variable, and can be assigned a value, which replaces the
    function. *)
Theorem function_statement_overwrites (fuel : nat) (id : string)
    (args : list Expression) (body : Expression) (s : State) :
  exists s',
    interpret_statement fuel (FunctionStatement id args body) s = Some (Returns tt s') /\
    memory s' !! id = Some (VClosure args body) /\
    (forall other, other <> id -> memory s' !! other = memory s !! other) /\
    console s' = console s /\
    (forall e, interpret_statement fuel (VariableDeclaration id e) s'
               = Some (Throws (VariableAlreadyDeclared id) s')) /\
    interpret (Identifier id) s' = Throws (VariableIsNotANumber id) s' /\
    (forall e v, interpret e s' = Returns v s' ->
       interpret_statement fuel (Assignment id e) s'
       = Some (Returns tt (memory_set id v s))).
Proof.
  exists (memory_set id (VClosure args body) s).
  assert (L : memory (memory_set id (VClosure args body) s) !! id
              = Some (VClosure args body)) by apply lookup_insert_eq.
  split; [apply interpret_statement_FunctionStatement|].
  split; [exact L|]. split; [|split; [reflexivity|split; [|split]]].
  - intros other Hne. simpl. now rewrite lookup_insert_ne.
  - intros e. rewrite interpret_statement_VariableDeclaration. unfold memory_has.
    rewrite bool_decide_eq_true_2; [reflexivity|]. rewrite L. eauto.
  - simpl. unfold memory_get. now rewrite L.
  - intros e v He. rewrite interpret_statement_Assignment. unfold memory_has.
    rewrite bool_decide_eq_true_2 by (rewrite L; eauto). simpl. rewrite He.
    unfold memory_set. simpl. now rewrite insert_insert_eq.
Qed.

End GlobalInvariants.

(** * Further properties of the earlier draft *)

Section ThreadedExpressions.
Context `{Host}.
Import Threaded.

Lemma only_logs_refl s : only_logs s s.
Proof. split; [reflexivity|]. exists []. simpl. now rewrite app_nil_r. Qed.

Lemma only_logs_trans s1 s2 s3 : only_logs s1 s2 -> only_logs s2 s3 -> only_logs s1 s3.
Proof.
  intros [M1 [t1 C1]] [M2 [t2 C2]]. split; [congruence|].
  exists (t1 ++ t2). now rewrite C2, C1, fmap_app, app_assoc.
Qed.

Lemma only_logs_bind {A B} (m : M State A) (k : A -> M State B) :
  (forall s, only_logs s (final (m s))) ->
  (forall a s, only_logs s (final (k a s))) ->
  forall s, only_logs s (final (bind m k s)).
Proof.
  intros Hm Hk s. unfold bind. specialize (Hm s).
  destruct (m s) as [a s'|e s']; simpl in Hm; [|exact Hm].
  eapply only_logs_trans; [exact Hm | apply Hk].
Qed.

Lemma only_logs_map_M {A B} (f : A -> M State B) (l : list A) :
  list_all A (fun a => forall s, only_logs s (final (f a s))) l ->
  forall s, only_logs s (final (map_M f l s)).
Proof.
  induction 1 as [|a Ha l _ IH]; simpl; [apply only_logs_refl|].
  apply only_logs_bind; [exact Ha|]. intros b.
  apply only_logs_bind; [exact IH|]. intros; apply only_logs_refl.
Qed.

Local Ltac logs :=
  repeat first
    [ apply only_logs_refl
    | assumption
    | apply only_logs_bind; [assumption | intros ?]
    | match goal with |- context [if truthy ?v then _ else _] => destruct (truthy v) end
    | match goal with H : forall s, only_logs s _ |- _ => apply H end
    | intros ? ].

Lemma interpret_only_logs (e : Expression) :
  forall s, only_logs s (final (interpret e s)).
Proof.
  induction e as [op l IHl r IHr | op e IHe | t IHt c IHc a IHa | callee args IH
                 | name | value | value]; simpl.
  - repeat (match goal with |- context [String.eqb ?x ?y] => destruct (String.eqb x y) end;
            [logs|]).
    logs.
  - repeat (match goal with |- context [String.eqb ?x ?y] => destruct (String.eqb x y) end;
            [logs|]).
    logs.
  - logs.
  - intros s. destruct (memory s !! callee) as [[v|f]|]; try apply only_logs_refl.
    apply only_logs_bind; [now apply only_logs_map_M | intros; apply only_logs_refl].
  - intros s.
    assert (L : only_logs s (console_log (LogTypeof (typeof (memory s !! name))) s)).
    { split; [reflexivity|]. now exists [typeof (memory s !! name)]. }
    destruct (memory s !! name) as [[[n|b]|f]|]; exact L.
  - logs.
  - logs.
Qed.

(** X16: in the earlier draft an expression never changes [memory] and
    never prints a value: whether it returns or throws, all it does to the
    state is add [typeof] lines, one per variable it reads, after what the
    console already shows. *)
Theorem threaded_expressions_only_log (e : Expression) (s : State) :
  memory (final (interpret e s)) = memory s /\
  exists ts : list string,
    console (final (interpret e s)) = console s ++ (LogTypeof <$> ts).
Proof. exact (interpret_only_logs e s). Qed.

(** X17: [Block.interpret] of the earlier draft returns from inside its
    loop, so a program runs its first statement and no other.  Whatever the
    statements after the first, the outcome is the same; the program prints at
    most one value, after the [typeof] lines of the expression, and binds or
    rebinds at most one name on top of the built-ins. *)
Theorem threaded_program_runs_one_statement (first : Statement)
    (rest : list Statement) (out : list Logged) :
  interpret_program (first :: rest) out = interpret_program [first] out /\
  exists ts : list string,
    let o := interpret_program (first :: rest) out in
    (memory (final o) = builtins /\
     (console (final o) = out ++ (LogTypeof <$> ts) \/
      exists v, console (final o) = out ++ (LogTypeof <$> ts) ++ [LogValue v])) \/
    (console (final o) = out ++ (LogTypeof <$> ts) /\
     exists k v, memory (final o) = <[k := VScalar v]> builtins).
Proof.
  split; [reflexivity|].
  set (s0 := {| memory := builtins; console := out |}).
  change (interpret_program (first :: rest) out) with (interpret_statement first s0).
  destruct first as [id e | target e | e]; simpl.
  - destruct (memory_has id s0).
    { exists []. left. split; [reflexivity|]. left. simpl. now rewrite app_nil_r. }
    unfold bind. destruct (interpret_only_logs e s0) as [Hm [ts Hc]].
    destruct (interpret e s0) as [v s'|x s']; simpl in *; exists ts.
    + right. split; [exact Hc|]. exists id, v. now rewrite Hm.
    + left. split; [exact Hm|]. now left.
  - destruct (negb (memory_has target s0)).
    { exists []. left. split; [reflexivity|]. left. simpl. now rewrite app_nil_r. }
    unfold bind. destruct (interpret_only_logs e s0) as [Hm [ts Hc]].
    destruct (interpret e s0) as [v s'|x s']; simpl in *; exists ts.
    + right. split; [exact Hc|]. exists target, v. now rewrite Hm.
    + left. split; [exact Hm|]. now left.
  - unfold bind. destruct (interpret_only_logs e s0) as [Hm [ts Hc]].
    destruct (interpret e s0) as [v s'|x s']; simpl in *; exists ts.
    + left. split; [exact Hm|]. right. exists v. now rewrite Hc, app_assoc.
    + left. split; [exact Hm|]. now left.
Qed.

(** X18: the operators of the earlier draft check no type.  Once both
    operands have returned, the arithmetic and comparison operators work on
    the numbers the two values convert to ([true] is 1, [false] is 0) and
    return; [==] and [!=] compare without conversion, so a number never equals
    a boolean.  An operator string outside the fourteen known ones throws the
    unknown-operator error before any operand is evaluated, so nothing is
    written to the console. *)
Theorem threaded_operators_check_no_type (l r : Expression) (s : State) :
  (forall lv rv s1 s2,
     interpret l s = Returns lv s1 -> interpret r s1 = Returns rv s2 ->
     interpret (BinaryExp "+" l r) s
       = Returns (Number (ToNumber lv + ToNumber rv)%float) s2 /\
     interpret (BinaryExp "-" l r) s
       = Returns (Number (ToNumber lv - ToNumber rv)%float) s2 /\
     interpret (BinaryExp "*" l r) s
       = Returns (Number (ToNumber lv * ToNumber rv)%float) s2 /\
     interpret (BinaryExp "/" l r) s
       = Returns (Number (ToNumber lv / ToNumber rv)%float) s2 /\
     interpret (BinaryExp "%" l r) s
       = Returns (Number (Number_remainder (ToNumber lv) (ToNumber rv))) s2 /\
     interpret (BinaryExp "**" l r) s
       = Returns (Number (Number_exponentiate (ToNumber lv) (ToNumber rv))) s2 /\
     interpret (BinaryExp "<" l r) s
       = Returns (Boolean (PrimFloat.ltb (ToNumber lv) (ToNumber rv))) s2 /\
     interpret (BinaryExp "<=" l r) s
       = Returns (Boolean (PrimFloat.leb (ToNumber lv) (ToNumber rv))) s2 /\
     interpret (BinaryExp ">=" l r) s
       = Returns (Boolean (PrimFloat.leb (ToNumber rv) (ToNumber lv))) s2 /\
     interpret (BinaryExp ">" l r) s
       = Returns (Boolean (PrimFloat.ltb (ToNumber rv) (ToNumber lv))) s2 /\
     interpret (BinaryExp "==" l r) s = Returns (Boolean (strict_equal lv rv)) s2 /\
     interpret (BinaryExp "!=" l r) s = Returns (Boolean (negb (strict_equal lv rv))) s2 /\
     (forall n b, strict_equal (Number n) (Boolean b) = false /\
                  strict_equal (Boolean b) (Number n) = false)) /\
  (forall operator, ~ In operator binary_operators ->
     interpret (BinaryExp operator l r) s = Throws (UnknownOperator operator) s).
Proof.
  split.
  - intros lv rv s1 s2 Hl Hr.
    repeat split;
      match goal with
      | |- interpret (BinaryExp ?op _ _) _ = _ =>
          cbn [interpret String.eqb Ascii.eqb Bool.eqb]; unfold bind;
          rewrite Hl, Hr; reflexivity
      end.
  - intros operator Hn. cbn [interpret].
    repeat (rewrite (not_in_eqb operator binary_operators _ Hn) by (simpl; tauto)).
    reflexivity.
Qed.

(** X19: the full law of [&&] and [||] in the earlier draft.  When the left
    operand throws, so does the operator; when it returns a value that
    decides (falsy for [&&], truthy for [||]) the operator returns that value
    and the right operand is not evaluated; otherwise the outcome is the
    outcome of the right operand, evaluated in the state the left one left. *)
Theorem threaded_logical_operators (l r : Expression) (s : State) :
  (forall x s1, interpret l s = Throws x s1 ->
     interpret (BinaryExp "&&" l r) s = Throws x s1 /\
     interpret (BinaryExp "||" l r) s = Throws x s1) /\
  (forall lv s1, interpret l s = Returns lv s1 ->
     interpret (BinaryExp "&&" l r) s
       = (if truthy lv then interpret r s1 else Returns lv s1) /\
     interpret (BinaryExp "||" l r) s
       = (if truthy lv then Returns lv s1 else interpret r s1)).
Proof.
  assert (Eand : interpret (BinaryExp "&&" l r) =
            bind (interpret l) (fun lv => if truthy lv then interpret r else ret lv))
    by reflexivity.
  assert (Eor : interpret (BinaryExp "||" l r) =
            bind (interpret l) (fun lv => if truthy lv then ret lv else interpret r))
    by reflexivity.
  rewrite Eand, Eor. split.
  - intros x s1 Hl. now rewrite !(bind_throws _ _ _ _ _ Hl).
  - intros lv s1 Hl. rewrite !(bind_returns _ _ _ _ _ Hl).
    now destruct (truthy lv).
Qed.

(** X20: [VariableDeclaration] and [Assignment] of the earlier draft test
    [memory] first.  When the test fails they throw in the untouched state:
    the expression is not evaluated, so not even a [typeof] line is written.
    Otherwise the expression is evaluated: if it returns [v] the name is bound
    to [v] on top of the unchanged [memory], and if it throws, the statement
    throws the same error and [memory] is unchanged. *)
Theorem threaded_declaration_and_assignment (name : string) (e : Expression)
    (s : State) :
  (is_Some (memory s !! name) ->
     interpret_statement (VariableDeclaration name e) s
     = Throws (VariableAlreadyDeclared name) s) /\
  (memory s !! name = None ->
     interpret_statement (Assignment name e) s = Throws (UnknownVariable name) s) /\
  (forall statement,
     (statement = VariableDeclaration name e /\ memory s !! name = None) \/
     (statement = Assignment name e /\ is_Some (memory s !! name)) ->
     (forall v s', interpret e s = Returns v s' ->
        interpret_statement statement s = Returns tt (memory_set name (VScalar v) s') /\
        memory (memory_set name (VScalar v) s') = <[name := VScalar v]> (memory s)) /\
     (forall x s', interpret e s = Throws x s' ->
        interpret_statement statement s = Throws x s' /\ memory s' = memory s)).
Proof.
  split; [|split].
  - intros Hs. simpl. unfold memory_has. now rewrite bool_decide_eq_true_2.
  - intros Hn. simpl. unfold memory_has.
    rewrite bool_decide_eq_false_2; [reflexivity|]. rewrite Hn. apply is_Some_None.
  - intros statement Hst.
    assert (E : interpret_statement statement s =
                bind (interpret e)
                  (fun v s' => Returns tt (memory_set name (VScalar v) s')) s).
    { destruct Hst as [[-> Hn]|[-> Hs]]; simpl; unfold memory_has.
      - now rewrite bool_decide_eq_false_2 by (rewrite Hn; apply is_Some_None).
      - now rewrite bool_decide_eq_true_2 by assumption. }
    pose proof (interpret_only_logs e s) as [Hm _].
    split.
    + intros v s' He. rewrite He in Hm. simpl in Hm.
      split; [now rewrite E, (bind_returns _ _ _ _ _ He)|].
      simpl. now rewrite Hm.
    + intros x s' He. rewrite He in Hm. simpl in Hm.
      split; [now rewrite E, (bind_throws _ _ _ _ _ He) | exact Hm].
Qed.

End ThreadedExpressions.

(** * The further properties on concrete programs *)

(** [expressions_never_return_functions] on [[1, 2, 3]]. *)
Lemma expressions_never_return_functions_witness :
  @Global.interpret example_host Global.one_two_three Global.initial
  = Returns (Global.VArray [Global.VNumber 1; Global.VNumber 2; Global.VNumber 3])
      Global.initial /\
  Global.is_data (Global.VArray [Global.VNumber 1; Global.VNumber 2; Global.VNumber 3])
  = true.
Proof.
  split; [reflexivity|].
  exact (proj1 (@expressions_never_return_functions example_host
                  Global.one_two_three Global.initial Global.initial _ eq_refl)).
Defined.

(** [array_literal_elementwise] on [[1, true]] and on [[1, missing, 2]]. *)
Lemma array_literal_elementwise_witness :
  @Global.interpret example_host
    (Global.ArrayLiteral [Global.Numeral 1; Global.Bool true]) Global.initial
  = Returns (Global.VArray [Global.VNumber 1; Global.VBoolean true]) Global.initial /\
  @Global.interpret example_host
    (Global.ArrayLiteral
       [Global.Numeral 1; Global.Identifier "missing"; Global.Numeral 2])
    Global.initial
  = Throws (UnknownVariable "missing") Global.initial.
Proof.
  split.
  - apply (proj1 (@array_literal_elementwise example_host
                    [Global.Numeral 1; Global.Bool true] Global.initial)).
    exists [Global.VNumber 1; Global.VBoolean true].
    split; [reflexivity|]. split; [reflexivity|]. split; [reflexivity|].
    repeat constructor.
  - apply (proj2 (@array_literal_elementwise example_host
                    [Global.Numeral 1; Global.Identifier "missing"; Global.Numeral 2]
                    Global.initial)
             [Global.Numeral 1] (Global.Identifier "missing") [Global.Numeral 2]).
    + reflexivity.
    + constructor; [|constructor]. exists (Global.VNumber 1). reflexivity.
    + reflexivity.
Defined.

(** [unary_operators_check_no_type] on [-true], [!!true] and an operator [~]. *)
Lemma unary_operators_check_no_type_witness :
  ~ In "~" unary_operators /\
  @Global.interpret example_host (Global.UnaryExp "-" (Global.Bool true)) Global.initial
  = Returns (Global.VNumber (-1)) Global.initial /\
  @Global.interpret example_host
    (Global.UnaryExp "!" (Global.UnaryExp "!" (Global.Bool true))) Global.initial
  = Returns (Global.VBoolean true) Global.initial /\
  @Global.interpret example_host
    (Global.UnaryExp "-" (Global.Identifier "missing")) Global.initial
  = Throws (UnknownVariable "missing") Global.initial /\
  @Global.interpret example_host
    (Global.UnaryExp "~" (Global.Identifier "missing")) Global.initial
  = Throws (UnknownOperator "~") Global.initial.
Proof.
  assert (Hn : ~ In "~" unary_operators)
    by (simpl; intros [E|[E|[]]]; discriminate E).
  pose proof (@unary_operators_check_no_type example_host
                (Global.Bool true) Global.initial) as [Hret _].
  pose proof (@unary_operators_check_no_type example_host
                (Global.Identifier "missing") Global.initial) as [_ [Hthrow Hop]].
  split; [exact Hn|].
  split; [exact (proj1 (Hret _ _ eq_refl))|].
  split; [exact (proj1 (proj2 (proj2 (Hret _ _ eq_refl))))|].
  split; [exact (proj1 (Hthrow _ _ eq_refl))|].
  exact (Hop "~" Hn).
Defined.

(** [binary_comparisons_and_logic] on the numbers 1 and 2. *)
Lemma binary_comparisons_and_logic_witness :
  ~ In "^" binary_operators /\
  @Global.interpret example_host
    (Global.BinaryExp "<" (Global.Numeral 1) (Global.Numeral 2)) Global.initial
  = Returns (Global.VBoolean true) Global.initial /\
  @Global.interpret example_host
    (Global.BinaryExp "&&" (Global.Numeral 1) (Global.Numeral 2)) Global.initial
  = Returns (Global.VNumber 2) Global.initial /\
  @Global.interpret example_host
    (Global.BinaryExp "^" (Global.Numeral 1) (Global.Numeral 2)) Global.initial
  = Throws (UnknownOperator "^") Global.initial.
Proof.
  assert (Hn : ~ In "^" binary_operators).
  { simpl. intros E. repeat (destruct E as [E|E]; [discriminate E|]). exact E. }
  pose proof (@binary_comparisons_and_logic example_host
                (Global.Numeral 1) (Global.Numeral 2)
                Global.initial Global.initial Global.initial 1%float 2%float
                eq_refl eq_refl)
    as (Hlt & _ & _ & _ & _ & _ & Hand & _ & Hop).
  split; [exact Hn|]. split; [exact Hlt|]. split; [exact Hand|]. exact (Hop "^" Hn).
Defined.

(** [native_call_receives_the_argument_array] on [sqrt(4)] and on [ln(4)],
    after the built-ins are set. *)
Lemma native_call_receives_the_argument_array_witness :
  Global.memory (Global.set_builtins Global.initial) !! "sqrt"
  = Some (Global.VNative NativeSqrt) /\
  @Global.interpret example_host (Global.Call "sqrt" [Global.Numeral 4])
    (Global.set_builtins Global.initial)
  = Returns (Global.VNumber 2) (Global.set_builtins Global.initial) /\
  @Global.interpret example_host
    (Global.Call "sqrt" [Global.Numeral 4; Global.Identifier "missing"])
    (Global.set_builtins Global.initial)
  = Throws (UnknownVariable "missing") (Global.set_builtins Global.initial) /\
  @Global.interpret example_host (Global.Call "ln" [Global.Identifier "missing"])
    (Global.set_builtins Global.initial)
  = Throws (ValueIsNotAFunction "ln") (Global.set_builtins Global.initial).
Proof.
  split; [reflexivity|]. split; [|split].
  - refine (proj1 (proj1 (proj2 (@native_call_receives_the_argument_array example_host
               "sqrt" [Global.Numeral 4] (Global.set_builtins Global.initial))
               NativeSqrt eq_refl) [Global.VNumber 4] _)).
    repeat constructor.
  - refine (proj2 (proj2 (@native_call_receives_the_argument_array example_host
               "sqrt" [Global.Numeral 4; Global.Identifier "missing"]
               (Global.set_builtins Global.initial))
               NativeSqrt eq_refl)
               [Global.Numeral 4] (Global.Identifier "missing") [] _ eq_refl _ eq_refl).
    constructor; [|constructor]. exists (Global.VNumber 4). reflexivity.
  - apply (proj1 (@native_call_receives_the_argument_array example_host
               "ln" [Global.Identifier "missing"] (Global.set_builtins Global.initial))).
    intros f E. discriminate E.
Defined.

(** [subscript_edge_indices] on [[1, 2, 3][-1]] and [[1, 2, 3][0]]. *)
Lemma subscript_edge_indices_witness :
  PrimFloat.leb 0%float (-1)%float = false /\
  PrimFloat.eqb 0%float 0%float = true /\
  @Global.interpret example_host
    (Global.Subscript Global.one_two_three (Global.UnaryExp "-" (Global.Numeral 1)))
    Global.initial
  = Returns Global.VUndefined Global.initial /\
  @Global.interpret example_host
    (Global.Subscript Global.one_two_three (Global.Numeral 0)) Global.initial
  = Returns (Global.VNumber 1) Global.initial.
Proof.
  split; [reflexivity|]. split; [reflexivity|]. split.
  - exact (proj1 (@subscript_edge_indices example_host
             Global.one_two_three (Global.UnaryExp "-" (Global.Numeral 1))
             Global.initial Global.initial Global.initial _ (-1)%float
             eq_refl eq_refl) (or_introl eq_refl)).
  - exact (proj2 (@subscript_edge_indices example_host
             Global.one_two_three (Global.Numeral 0)
             Global.initial Global.initial Global.initial _ 0%float
             eq_refl eq_refl) eq_refl).
Defined.

(** [expressions_ignore_the_console] on [x + 1] with [x] bound to 1. *)
Lemma expressions_ignore_the_console_witness :
  @Global.interpret example_host
    (Global.BinaryExp "+" (Global.Identifier "x") (Global.Numeral 1)) Global.x_is_one
  = Returns (Global.VNumber 2) Global.x_is_one /\
  @Global.interpret example_host
    (Global.BinaryExp "+" (Global.Identifier "x") (Global.Numeral 1))
    (put_console [Global.VBoolean true] Global.x_is_one)
  = Returns (Global.VNumber 2) (put_console [Global.VBoolean true] Global.x_is_one).
Proof.
  split; [reflexivity|].
  exact (proj1 (@expressions_ignore_the_console example_host
                  (Global.BinaryExp "+" (Global.Identifier "x") (Global.Numeral 1))
                  Global.x_is_one [Global.VBoolean true]) _ eq_refl).
Defined.

(** [prints_in_order] on [print(1); print(true)] and on
    [print(1); print(missing); print(2)]. *)
Lemma prints_in_order_witness :
  @Global.interpret_block (@Global.interpret_statement example_host 0)
    [Global.PrintStatement (Global.Numeral 1); Global.PrintStatement (Global.Bool true)]
    Global.initial
  = Some (Returns tt
            (put_console [Global.VNumber 1; Global.VBoolean true] Global.initial)) /\
  @Global.interpret_block (@Global.interpret_statement example_host 0)
    [Global.PrintStatement (Global.Numeral 1);
     Global.PrintStatement (Global.Identifier "missing");
     Global.PrintStatement (Global.Numeral 2)]
    Global.initial
  = Some (Throws (UnknownVariable "missing")
            (put_console [Global.VNumber 1] Global.initial)).
Proof.
  split.
  - refine (proj1 (@prints_in_order example_host 0
               [Global.Numeral 1; Global.Bool true] Global.initial)
               [Global.VNumber 1; Global.VBoolean true] _).
    repeat constructor.
  - refine (proj2 (@prints_in_order example_host 0
               [Global.Numeral 1; Global.Identifier "missing"; Global.Numeral 2]
               Global.initial)
               [Global.Numeral 1] [Global.VNumber 1] (Global.Identifier "missing")
               [Global.Numeral 2] _ eq_refl _ eq_refl).
    repeat constructor.
Defined.

(** [statements_keep_output_and_names] on [x = 2; print(x)] with [x] bound. *)
Lemma statements_keep_output_and_names_witness :
  @Global.interpret_block (@Global.interpret_statement example_host 0)
    [Global.Assignment "x" (Global.Numeral 2);
     Global.PrintStatement (Global.Identifier "x")]
    Global.x_is_one
  = Some (Returns tt
            (Global.console_log (Global.VNumber 2)
               (Global.memory_set "x" (Global.VNumber 2) Global.x_is_one))) /\
  keeps_all Global.x_is_one
    (Global.console_log (Global.VNumber 2)
       (Global.memory_set "x" (Global.VNumber 2) Global.x_is_one)).
Proof.
  split; [reflexivity|].
  exact (proj2 (@statements_keep_output_and_names example_host 0 Global.x_is_one)
           [Global.Assignment "x" (Global.Numeral 2);
            Global.PrintStatement (Global.Identifier "x")] _ eq_refl).
Defined.

(** [idle_loop_never_ends] on [while (true) {}] with room for five
    iterations. *)
Lemma idle_loop_never_ends_witness :
  Global.truthy (Global.VBoolean true) = true /\
  @Global.interpret_statement example_host 5
    (Global.While (Global.Bool true) []) Global.initial
  = None.
Proof.
  split; [reflexivity|].
  exact (@idle_loop_never_ends example_host (Global.Bool true) [] Global.initial
           (Global.VBoolean true) eq_refl eq_refl (fun _ => eq_refl) 5).
Defined.

(** [builtins_set_on_every_run] on the names [x] and [sin]. *)
Lemma builtins_set_on_every_run_witness :
  ~ In "x" builtin_names /\ In "sin" builtin_names /\
  Global.memory (Global.set_builtins Global.x_is_one) !! "x"
  = Global.memory Global.x_is_one !! "x" /\
  @Global.interpret_program example_host 0
    [Global.VariableDeclaration "sin" (Global.Numeral 1)] Global.initial
  = Some (Throws (VariableAlreadyDeclared "sin") (Global.set_builtins Global.initial)).
Proof.
  assert (Hn : ~ In "x" builtin_names).
  { simpl. intros E. repeat (destruct E as [E|E]; [discriminate E|]). exact E. }
  assert (Hi : In "sin" builtin_names) by (left; reflexivity).
  split; [exact Hn|]. split; [exact Hi|]. split.
  - exact (proj1 (@builtins_set_on_every_run example_host Global.x_is_one) "x" Hn).
  - exact (proj2 (proj1 (proj2 (proj2 (proj2
             (@builtins_set_on_every_run example_host Global.initial))))
             "sin" Hi 0 (Global.Numeral 1) [])).
Defined.

(** [variable_read_back] on [x := true] in the empty state. *)
Lemma variable_read_back_witness :
  Global.memory Global.initial !! "x" = None /\
  exists s',
    @Global.interpret_statement example_host 0
      (Global.VariableDeclaration "x" (Global.Bool true)) Global.initial
    = Some (Returns tt s') /\
    @Global.interpret example_host (Global.Identifier "x") s'
    = Throws (VariableIsNotANumber "x") s'.
Proof.
  split; [reflexivity|].
  destruct (@variable_read_back example_host 0 "x" (Global.Bool true) Global.initial
              (Global.VBoolean true) eq_refl
              (Global.VariableDeclaration "x" (Global.Bool true))
              (or_introl (conj eq_refl eq_refl)))
    as (s' & Hrun & _ & _ & Hread).
  exists s'. split; [exact Hrun | exact Hread].
Defined.

(** [function_statement_overwrites] on a function named [x] where [x] is a
    variable. *)
Lemma function_statement_overwrites_witness :
  is_Some (Global.memory Global.x_is_one !! "x") /\
  exists s',
    @Global.interpret_statement example_host 0
      (Global.FunctionStatement "x" [] (Global.Numeral 1)) Global.x_is_one
    = Some (Returns tt s') /\
    @Global.interpret example_host (Global.Identifier "x") s'
    = Throws (VariableIsNotANumber "x") s' /\
    @Global.interpret_statement example_host 0
      (Global.Assignment "x" (Global.Numeral 2)) s'
    = Some (Returns tt (Global.memory_set "x" (Global.VNumber 2) Global.x_is_one)).
Proof.
  split; [exists (Global.VNumber 1); reflexivity|].
  destruct (@function_statement_overwrites example_host 0 "x" [] (Global.Numeral 1)
              Global.x_is_one)
    as (s' & Hrun & _ & _ & _ & _ & Hread & Hassign).
  exists s'. split; [exact Hrun|]. split; [exact Hread|].
  exact (Hassign (Global.Numeral 2) (Global.VNumber 2) eq_refl).
Defined.

(** [threaded_operators_check_no_type] on [true + true] and an operator [^]. *)
Lemma threaded_operators_check_no_type_witness :
  ~ In "^" binary_operators /\
  @Threaded.interpret example_host
    (Threaded.BinaryExp "+" (Threaded.Bool true) (Threaded.Bool true)) Threaded.initial
  = Returns (Threaded.Number 2) Threaded.initial /\
  @Threaded.interpret example_host
    (Threaded.BinaryExp "^" (Threaded.Identifier "x") (Threaded.Identifier "y"))
    Threaded.initial
  = Throws (UnknownOperator "^") Threaded.initial.
Proof.
  assert (Hn : ~ In "^" binary_operators).
  { simpl. intros E. repeat (destruct E as [E|E]; [discriminate E|]). exact E. }
  split; [exact Hn|]. split.
  - exact (proj1 (proj1 (@threaded_operators_check_no_type example_host
             (Threaded.Bool true) (Threaded.Bool true) Threaded.initial)
             _ _ _ _ eq_refl eq_refl)).
  - exact (proj2 (@threaded_operators_check_no_type example_host
             (Threaded.Identifier "x") (Threaded.Identifier "y") Threaded.initial)
             "^" Hn).
Defined.

(** [threaded_logical_operators] on [true || missing] and [missing && true]. *)
Lemma threaded_logical_operators_witness :
  @Threaded.interpret example_host
    (Threaded.BinaryExp "||" (Threaded.Bool true) (Threaded.Identifier "missing"))
    Threaded.initial
  = Returns (Threaded.Boolean true) Threaded.initial /\
  @Threaded.interpret example_host
    (Threaded.BinaryExp "&&" (Threaded.Identifier "missing") (Threaded.Bool true))
    Threaded.initial
  = Throws (UnknownVariable "missing")
      (Threaded.console_log (Threaded.LogTypeof "undefined") Threaded.initial).
Proof.
  split.
  - exact (proj2 (proj2 (@threaded_logical_operators example_host
             (Threaded.Bool true) (Threaded.Identifier "missing") Threaded.initial)
             _ _ eq_refl)).
  - exact (proj1 (proj1 (@threaded_logical_operators example_host
             (Threaded.Identifier "missing") (Threaded.Bool true) Threaded.initial)
             _ _ eq_refl)).
Defined.

(** [threaded_declaration_and_assignment] on the name [x] in the empty map. *)
Lemma threaded_declaration_and_assignment_witness :
  Threaded.memory Threaded.initial !! "x" = None /\
  @Threaded.interpret_statement example_host
    (Threaded.Assignment "x" (Threaded.Identifier "y")) Threaded.initial
  = Throws (UnknownVariable "x") Threaded.initial /\
  @Threaded.interpret_statement example_host
    (Threaded.VariableDeclaration "x" (Threaded.Numeral 1)) Threaded.initial
  = Returns tt
      (Threaded.memory_set "x" (Threaded.VScalar (Threaded.Number 1)) Threaded.initial) /\
  @Threaded.interpret_statement example_host
    (Threaded.VariableDeclaration "x" (Threaded.Identifier "y")) Threaded.initial
  = Throws (UnknownVariable "y")
      (Threaded.console_log (Threaded.LogTypeof "undefined") Threaded.initial).
Proof.
  split; [reflexivity|]. split; [|split].
  - exact (proj1 (proj2 (@threaded_declaration_and_assignment example_host
             "x" (Threaded.Identifier "y") Threaded.initial)) eq_refl).
  - exact (proj1 (proj1 (proj2 (proj2 (@threaded_declaration_and_assignment example_host
             "x" (Threaded.Numeral 1) Threaded.initial))
             _ (or_introl (conj eq_refl eq_refl))) _ _ eq_refl)).
  - exact (proj1 (proj2 (proj2 (proj2 (@threaded_declaration_and_assignment example_host
             "x" (Threaded.Identifier "y") Threaded.initial))
             _ (or_introl (conj eq_refl eq_refl))) _ _ eq_refl)).
Defined.
